(** * MEGA65 image converter (IC65_128_2.py, IC65_128_3.py)

    A shallow embedding of the two conversion scripts and the properties
    of their own logic: the per-channel 4-bit colour reduction, the
    colour-count extraction from the converter's diagnostic text, the
    derivation of the output file names, the control flow of one pipeline
    run over the external tools, and the interactive session loop.

    The two scripts share their text up to the check of the D81 disk
    image; [IC65_128_3] (the loader variant) appends the generation of a
    BASIC loader.  The shared steps are embedded once. *)

From Stdlib Require Import ZArith QArith Qround String Ascii List Lia SpecFloat.
From Stdlib Require Import DecimalString DecimalPos.
From stdpp Require Import base list.
Import ListNotations.

Local Open Scope Z_scope.
Local Open Scope string_scope.

(** ** Python values the scripts work with *)

(** A command handed to [subprocess.run]: an argument vector, or one
    command line interpreted by the shell ([shell=True]). *)
Inductive command :=
| Argv (args : list string)
| Shell (line : string).

(** The exceptions that can travel through the scripts.  [OSError] stands
    for the failures of the file and imaging libraries (a file that cannot
    be opened, read as an image, or written). *)
Inductive exn :=
| CalledProcessError (cmd : command) (returncode : Z)
| IndexError
| ValueError
| EOFError
| OSError.

(** The result of a pure computation that may raise. *)
Inductive outcome (A : Type) :=
| Ok (a : A)
| Raise (e : exn).
Arguments Ok {A} a.
Arguments Raise {A} e.

Definition obind {A B} (o : outcome A) (k : A -> outcome B) : outcome B :=
  match o with
  | Ok a => k a
  | Raise e => Raise e
  end.

(** [for x in xs: s = body(x, s)], stopping at the first exception. *)
Fixpoint for_each {S : Type} (xs : list nat) (body : nat -> S -> outcome S) (s : S)
  : outcome S :=
  match xs with
  | [] => Ok s
  | x :: rest => obind (body x s) (for_each rest body)
  end.

Definition range (n : nat) : list nat := seq 0 n.

(** ** Floating point: Python's [float] is IEEE 754 binary64 *)

Module Float.

Definition prec : Z := 53.
Definition emax : Z := 1024.

(** [float(n)] for an integer [n]; exact when [|n| < 2^53]. *)
Definition of_int (n : Z) : spec_float := binary_normalize prec emax n 0 false.

(** [x / y] and [x * y], rounded to nearest, ties to even. *)
Definition div (x y : spec_float) : spec_float := SFdiv prec emax x y.
Definition mul (x y : spec_float) : spec_float := SFmul prec emax x y.

(** [int(x)]: truncation towards zero.  On an infinity or a NaN Python
    raises; neither arises from the quotient of two integers below
    [2^53] in magnitude, and the model answers [0] there. *)
Definition to_int (x : spec_float) : Z :=
  match x with
  | S754_finite s m e =>
      let a := match e with
               | Z0 => Zpos m
               | Zpos p => Zpos m * 2 ^ Zpos p
               | Zneg p => Zpos m / 2 ^ Zpos p
               end in
      if s then - a else a
  | _ => 0
  end.

End Float.

(** ** The Pixel Depth Reducer *)

(** [to_4bit(value) = int((value / 255) * 15) * 17]: [/] is true division
    of two integers, giving a float; the product with [15] is a float
    product; [int] truncates; the last product is on integers. *)
Definition to_4bit (value : Z) : Z :=
  Float.to_int (Float.mul (Float.div (Float.of_int value) (Float.of_int 255))
                          (Float.of_int 15)) * 17.

(** A pixel of an RGB image and the image itself: its mode, its size and
    its pixels in row-major order, the pixel at column [x] of row [y]
    being at index [y * width + x]. *)
Definition Pixel : Type := Z * Z * Z.

Record Image := mkImage {
  mode : string;
  width : nat;
  height : nat;
  data : list Pixel
}.

(** [pixels[x, y]] and [pixels[x, y] = p] on the pixel access object of
    [img.load()], which shares the image's storage; a coordinate outside the
    image raises [IndexError]. *)
Definition getpixel (img : Image) (x y : nat) : outcome Pixel :=
  if (x <? width img)%nat && (y <? height img)%nat then
    match data img !! (y * width img + x)%nat with
    | Some p => Ok p
    | None => Raise IndexError
    end
  else Raise IndexError.

Definition putpixel (img : Image) (x y : nat) (p : Pixel) : outcome Image :=
  if (x <? width img)%nat && (y <? height img)%nat then
    if (y * width img + x <? length (data img))%nat then
      Ok (mkImage (mode img) (width img) (height img)
                  (<[(y * width img + x)%nat := p]> (data img)))
    else Raise IndexError
  else Raise IndexError.

Section Reducer.

(** [img.convert('RGB')] of the imaging library, for an image in
    another mode. *)
Variable convert : Image -> string -> Image.

Definition reduce_to_4bit_color (img : Image) : outcome Image :=
  let img := if String.eqb (mode img) "RGB" then img else convert img "RGB" in
  for_each (range (height img)) (fun y img =>
    for_each (range (width img)) (fun x img =>
      obind (getpixel img x y) (fun '(r, g, b) =>
        putpixel img x y (to_4bit r, to_4bit g, to_4bit b)))
      img)
    img.

End Reducer.

(** What the specification says of a channel: [floor(v / 255 * 15) * 17],
    over the rationals. *)
Definition spec_level (v : Z) : Z :=
  Qfloor (inject_Z v / 255 * 15) * 17.

Definition spec_pixel (p : Pixel) : Pixel :=
  let '(r, g, b) := p in (spec_level r, spec_level g, spec_level b).

Definition channel_ok (v : Z) : Prop := 0 <= v <= 255.

Definition pixel_ok (p : Pixel) : Prop :=
  let '(r, g, b) := p in channel_ok r /\ channel_ok g /\ channel_ok b.

(** A raster: an RGB image holding one pixel per coordinate. *)
Definition raster (img : Image) : Prop :=
  mode img = "RGB" /\ length (data img) = (width img * height img)%nat.

(** The 16 levels of a 4-bit channel, scaled back to 8 bits. *)
Definition levels : list Z := map (fun k => 17 * Z.of_nat k) (seq 0 16).

(** The 256 values of an 8-bit channel. *)
Definition bytes : list Z := map Z.of_nat (seq 0 256).

(** The reducer's effect on one pixel. *)
Definition to_4bit_pixel (p : Pixel) : Pixel :=
  let '(r, g, b) := p in (to_4bit r, to_4bit g, to_4bit b).

(** The storage after the first [k] pixels (in row-major order) of [d0]
    have been rewritten. *)
Definition rewritten (d0 : list Pixel) (k : nat) : list Pixel :=
  map to_4bit_pixel (take k d0) ++ drop k d0.

(** The body of the inner loop, as in [reduce_to_4bit_color]. *)
Definition pixel_body (y x : nat) (img : Image) : outcome Image :=
  obind (getpixel img x y) (fun '(r, g, b) =>
    putpixel img x y (to_4bit r, to_4bit g, to_4bit b)).

(** ** Python's string operations, as the scripts use them

    A [str] is modelled by a [string] of code points below 256. *)

Module Str.

(** The white space of [str.strip()], [str.split()] and [int()]. *)
Definition isspace (c : ascii) : bool :=
  let n := nat_of_ascii c in
  ((9 <=? n) && (n <=? 13) || (28 <=? n) && (n <=? 32) || (n =? 133) || (n =? 160))%nat.

Fixpoint lstrip (s : string) : string :=
  match s with
  | EmptyString => EmptyString
  | String c rest => if isspace c then lstrip rest else s
  end.

Fixpoint rstrip (s : string) : string :=
  match s with
  | EmptyString => EmptyString
  | String c rest =>
      match rstrip rest with
      | EmptyString => if isspace c then EmptyString else String c EmptyString
      | kept => String c kept
      end
  end.

(** [s.strip()] *)
Definition strip (s : string) : string := rstrip (lstrip s).

Definition lower_char (c : ascii) : ascii :=
  let n := nat_of_ascii c in
  if ((65 <=? n) && (n <=? 90) || (192 <=? n) && (n <=? 222) && negb (n =? 215))%nat
  then ascii_of_nat (n + 32)
  else c.

(** [s.lower()] *)
Fixpoint lower (s : string) : string :=
  match s with
  | EmptyString => EmptyString
  | String c rest => String (lower_char c) (lower rest)
  end.

(** [sub in s] *)
Fixpoint contains (sub s : string) : bool :=
  String.prefix sub s ||
  match s with
  | EmptyString => false
  | String _ rest => contains sub rest
  end.

(** [s.split(sep)] for a non-empty [sep]: the pieces between the
    occurrences of [sep], found from left to right without overlap.
    [skip] counts the characters of a separator still to be passed. *)
Fixpoint split_from (sep : string) (skip : nat) (s : string) : list string :=
  match s with
  | EmptyString => [EmptyString]
  | String c rest =>
      match skip with
      | S k => split_from sep k rest
      | O =>
          if String.prefix sep s then EmptyString :: split_from sep (String.length sep - 1) rest
          else match split_from sep 0 rest with
               | piece :: pieces => String c piece :: pieces
               | [] => [String c EmptyString]
               end
      end
  end.

Definition split (sep s : string) : list string := split_from sep 0 s.

(** [s.split()]: the maximal runs of characters that are not white space.
    The auxiliary function returns the run that starts [s], if any, apart
    from the later ones. *)
Fixpoint words_from (s : string) : string * list string :=
  match s with
  | EmptyString => (EmptyString, [])
  | String c rest =>
      let '(tok, toks) := words_from rest in
      if isspace c then
        (EmptyString, match tok with EmptyString => toks | _ => tok :: toks end)
      else (String c tok, toks)
  end.

Definition words (s : string) : list string :=
  let '(tok, toks) := words_from s in
  match tok with EmptyString => toks | _ => tok :: toks end.

(** [l[0]] and [l[-1]] *)
Definition first {A} (l : list A) : outcome A :=
  match l with
  | x :: _ => Ok x
  | [] => Raise IndexError
  end.

Definition last {A} (l : list A) : outcome A :=
  match List.last (map Some l) None with
  | Some x => Ok x
  | None => Raise IndexError
  end.

Definition digit (c : ascii) : option Z :=
  let n := nat_of_ascii c in
  if ((48 <=? n) && (n <=? 57))%nat then Some (Z.of_nat n - 48) else None.

(** The digits of a decimal literal, where single underscores may stand
    between digits; gives the value and the number of digits. *)
Fixpoint digits (acc : Z) (count : nat) (after_digit : bool) (s : string)
  : option (Z * nat) :=
  match s with
  | EmptyString => if after_digit then Some (acc, count) else None
  | String c rest =>
      if Ascii.eqb c "_" then
        if after_digit then digits acc count false rest else None
      else match digit c with
           | Some d => digits (10 * acc + d) (S count) true rest
           | None => None
           end
  end.

(** The default limit on the number of digits [int] converts. *)
Definition max_str_digits : nat := 4300.

(** [int(s)]: surrounding white space, an optional sign, decimal digits. *)
Definition int (s : string) : outcome Z :=
  let s := strip s in
  let '(negative, body) :=
    match s with
    | String "-" rest => (true, rest)
    | String "+" rest => (false, rest)
    | _ => (false, s)
    end in
  match digits 0 0 false body with
  | Some (n, count) =>
      if (max_str_digits <? count)%nat then Raise ValueError
      else Ok (if negative then - n else n)
  | None => Raise ValueError
  end.

(** [str(n)] for an integer. *)
Definition of_int (n : Z) : string := NilZero.string_of_int (Z.to_int n).

(** [s.rfind(c)] for a character: the index of its last occurrence, [-1]
    when there is none.  [i] is the index of the head of [s]. *)
Fixpoint rfind_from (c : ascii) (i : Z) (s : string) : Z :=
  match s with
  | EmptyString => -1
  | String d rest =>
      let later := rfind_from c (i + 1) rest in
      if (0 <=? later)%Z then later else if Ascii.eqb d c then i else -1
  end.

Definition rfind (c : ascii) (s : string) : Z := rfind_from c 0 s.

(** The slices [s[:i]] and [s[i:]] for [0 <= i]. *)
Fixpoint take (i : nat) (s : string) : string :=
  match i, s with
  | S k, String c rest => String c (take k rest)
  | _, _ => EmptyString
  end.

Fixpoint drop (i : nat) (s : string) : string :=
  match i, s with
  | S k, String _ rest => drop k rest
  | _, _ => s
  end.

End Str.

(** ** [os.path] on a POSIX system *)

Module Path.

(** The loop of [_splitext] that looks for a character other than a dot
    between the start of the file name and its last dot. *)
Fixpoint has_stem (fuel : nat) (p : string) (filenameIndex dotIndex : Z) : bool :=
  match fuel with
  | O => false
  | S k =>
      if (filenameIndex <? dotIndex)%Z then
        match String.get (Z.to_nat filenameIndex) p with
        | Some c =>
            if Ascii.eqb c "." then has_stem k p (filenameIndex + 1) dotIndex
            else true
        | None => true
        end
      else false
  end.

(** [os.path.splitext(p)]: the extension starts at the last dot of the
    last path component, dots that begin the component apart. *)
Definition splitext (p : string) : string * string :=
  let sepIndex := Str.rfind "/" p in
  let dotIndex := Str.rfind "." p in
  if (sepIndex <? dotIndex)%Z && has_stem (String.length p) p (sepIndex + 1) dotIndex
  then (Str.take (Z.to_nat dotIndex) p, Str.drop (Z.to_nat dotIndex) p)
  else (p, EmptyString).

(** [os.path.basename(p)] *)
Definition basename (p : string) : string :=
  Str.drop (Z.to_nat (Str.rfind "/" p + 1)) p.

End Path.

(** ** The Color Count Parser

    [if "colors found" in stderr:
       color_count = int(stderr.split("colors found")[0].split()[-1])]
    gives the count, nothing when the marker is absent, or raises. *)

Definition marker : string := "colors found".

Definition color_count (stderr : string) : outcome (option Z) :=
  if Str.contains marker stderr then
    obind (Str.first (Str.split marker stderr)) (fun before =>
    obind (Str.last (Str.words before)) (fun token =>
    obind (Str.int token) (fun n => Ok (Some n))))
  else Ok None.

(** ** The Filename Deriver

    [base_name = os.path.splitext(input_image)[0]] and the names built
    from it by both scripts ([.ppm], [.iff]) and by the loader variant
    ([.bas], [.prg]). *)

Record Names := mkNames {
  base_name : string;
  output_ppm : string;
  output_iff : string;
  loader_bas : string;
  loader_prg : string
}.

Definition derive_names (input_image : string) : Names :=
  let base_name := fst (Path.splitext input_image) in
  mkNames base_name (base_name ++ ".ppm") (base_name ++ ".iff")
          (base_name ++ ".bas") (base_name ++ ".prg").

(** ** The outside world of one pipeline run *)

(** What the script does to its environment, with the answer it got. *)
Inductive event :=
| Printed (line : string)
| Prompted (prompt : string) (reply : option string)
| Ran (cmd : command) (status : outcome Z)
| Probed (path : string) (found : bool)
| Opened (path : string) (img : outcome Image)
| Saved (path : string) (img : Image) (failure : option exn)
| Wrote (path : string) (text : string) (failure : option exn).

(** The answers of the environment during one iteration of the session
    loop.  Every question is asked at most once per iteration, at one
    place of the script, so a field per place describes any environment.
    A reply [None] is the end of the standard input; the status of a tool
    is its exit status, or the failure to start it; [ppm_image] is the
    result of importing the imaging library and opening the PPM file. *)
Record Answers := mkAnswers {
  in_image : option string;
  rc_convert : outcome Z;
  ppm_exists : bool;
  rc_ilbm : outcome Z;
  stderr_ilbm : string;
  ppm_image : outcome Image;
  ppm_saved : option exn;
  rc_ilbm_again : outcome Z;
  iff_exists : bool;
  in_disk : option string;
  rc_cc1541 : outcome Z;
  d81_exists : bool;
  bas_written : option exn;
  rc_petcat : outcome Z;
  rc_cc1541_prg : outcome Z;
  in_retry : option string
}.

(** How a block of statements ends: it falls through with a value, it
    executes [return], or it raises. *)
Inductive flow (A : Type) :=
| Next (a : A)
| Return
| Throw (e : exn).
Arguments Next {A} a.
Arguments Return {A}.
Arguments Throw {A} e.

(** A block of statements: given the answers, how it ends and what it
    did, in order. *)
Definition M (A : Type) : Type := Answers -> flow A * list event.

Definition ret {A} (a : A) : M A := fun _ => (Next a, []).

Definition bind {A B} (m : M A) (k : A -> M B) : M B :=
  fun w =>
    match m w with
    | (Next a, t) => let '(r, t') := k a w in (r, (t ++ t')%list)
    | (Return, t) => (Return, t)
    | (Throw e, t) => (Throw e, t)
    end.

Declare Scope py_scope.
Delimit Scope py_scope with py.
Notation "x <- m ;; k" := (bind m (fun x => k))
  (at level 100, m at next level, right associativity) : py_scope.
Notation "m ;; k" := (bind m (fun _ => k))
  (at level 100, right associativity) : py_scope.

(** The [return] statement, and the end of the function body that
    contains it. *)
Definition return_ {A} : M A := fun _ => (Return, []).

Definition call (body : M unit) : M unit :=
  fun w =>
    match body w with
    | (Return, t) => (Next tt, t)
    | other => other
    end.

(** [try: body except ...:] where [handler e] is the clause that matches
    [e], if one does. *)
Definition try_except {A} (body : M A) (handler : exn -> option (M A)) : M A :=
  fun w =>
    match body w with
    | (Throw e, t) =>
        match handler e with
        | Some h => let '(r, t') := h w in (r, (t ++ t')%list)
        | None => (Throw e, t)
        end
    | other => other
    end.

(** A pure computation that may raise. *)
Definition lift {A} (o : outcome A) : M A :=
  fun _ => match o with Ok a => (Next a, []) | Raise e => (Throw e, []) end.

Definition print (line : string) : M unit := fun _ => (Next tt, [Printed line]).

(** [input(prompt)] *)
Definition input (prompt : string) (reply : Answers -> option string) : M string :=
  fun w =>
    match reply w with
    | Some r => (Next r, [Prompted prompt (Some r)])
    | None => (Throw EOFError, [Prompted prompt None])
    end.

(** [subprocess.run(cmd, check=check)], giving the exit status. *)
Definition subprocess_run (cmd : command) (check : bool) (status : Answers -> outcome Z)
  : M Z :=
  fun w =>
    match status w with
    | Ok rc =>
        if check && negb (rc =? 0)%Z
        then (Throw (CalledProcessError cmd rc), [Ran cmd (Ok rc)])
        else (Next rc, [Ran cmd (Ok rc)])
    | Raise e => (Throw e, [Ran cmd (Raise e)])
    end.

(** The result of [subprocess.run(cmd, shell=True, capture_output=True,
    text=True)]: the call does not check the exit status. *)
Record CompletedProcess := mkCompleted {
  returncode : Z;
  stderr : string
}.

Definition subprocess_run_captured (cmd : command) (status : Answers -> outcome Z)
    (err : Answers -> string) : M CompletedProcess :=
  fun w =>
    match status w with
    | Ok rc => (Next (mkCompleted rc (err w)), [Ran cmd (Ok rc)])
    | Raise e => (Throw e, [Ran cmd (Raise e)])
    end.

(** [os.path.exists(path)] *)
Definition os_path_exists (path : string) (found : Answers -> bool) : M bool :=
  fun w => (Next (found w), [Probed path (found w)]).

(** [Image.open(path)] *)
Definition Image_open (path : string) (img : Answers -> outcome Image) : M Image :=
  fun w =>
    match img w with
    | Ok i => (Next i, [Opened path (Ok i)])
    | Raise e => (Throw e, [Opened path (Raise e)])
    end.

(** [img.save(path, 'PPM')] *)
Definition Image_save (path : string) (img : Image) (failure : Answers -> option exn)
  : M unit :=
  fun w =>
    match failure w with
    | None => (Next tt, [Saved path img None])
    | Some e => (Throw e, [Saved path img (Some e)])
    end.

(** [with open(path, 'w') as f: f.write(...)], all the text at once. *)
Definition write_text (path : string) (text : string) (failure : Answers -> option exn)
  : M unit :=
  fun w =>
    match failure w with
    | None => (Next tt, [Wrote path text None])
    | Some e => (Throw e, [Wrote path text (Some e)])
    end.

(** What the imaging and the standard library contribute beyond the above:
    [img.convert(mode)] and the text [str(e)] of an exception. *)
Class Library := {
  Image_convert : Image -> string -> Image;
  exn_str : exn -> string
}.

Definition newline : string := String (ascii_of_nat 10) EmptyString.
Definition dquote : string := String (ascii_of_nat 34) EmptyString.

(** ** Observations on the events of a run *)

(** A message to the user, and one that announces an error. *)
Definition is_report (e : event) : bool :=
  match e with
  | Printed _ => true
  | _ => false
  end.

Definition is_error_report (e : event) : bool :=
  match e with
  | Printed line => String.prefix "Error" line
  | _ => false
  end.

(** An external tool that ended with a nonzero exit status. *)
Definition tool_failed (e : event) : bool :=
  match e with
  | Ran _ (Ok rc) => negb (rc =? 0)%Z
  | _ => false
  end.

(** The imaging library opens or saves a file. *)
Definition touches_image (e : event) : bool :=
  match e with
  | Opened _ _ | Saved _ _ _ => true
  | _ => false
  end.

(** A command line handed to the shell: only the conversions of the PPM
    file to IFF are run that way. *)
Definition is_shell_run (e : event) : bool :=
  match e with
  | Ran (Shell _) _ => true
  | _ => false
  end.

(** Neither of the two. *)
Definition quiet (e : event) : bool :=
  negb (touches_image e) && negb (is_shell_run e).

(** After the failure of a tool a run only reports, starting with an
    error message. *)
Fixpoint aborts_on_failure (t : list event) : bool :=
  match t with
  | [] => true
  | e :: later =>
      (if tool_failed e then
         match later with
         | [] => false
         | report :: _ => is_error_report report && forallb is_report later
         end
       else true)
      && aborts_on_failure later
  end.

(** A run that met the failure of a tool has returned normally. *)
Definition returns_after_failure (run : flow unit * list event) : bool :=
  let '(r, t) := run in
  if existsb tool_failed t then
    match r with
    | Next _ => true
    | _ => false
    end
  else true.

(** ** Occurrences of a text in another *)

(** [sub] occurs in [s] at index [n]; its first occurrence is at [n]. *)
Definition occurs_at (sub s : string) (n : nat) : Prop :=
  String.prefix sub (Str.drop n s) = true.

Definition first_at (sub s : string) (n : nat) : Prop :=
  occurs_at sub s n /\ forall k, (k < n)%nat -> ~ occurs_at sub s k.

(** A token: a non-empty text without white space; a blank text holds
    nothing but white space. *)
Fixpoint no_space (s : string) : bool :=
  match s with
  | EmptyString => true
  | String c rest => negb (Str.isspace c) && no_space rest
  end.

Fixpoint blank (s : string) : bool :=
  match s with
  | EmptyString => true
  | String c rest => Str.isspace c && blank rest
  end.

Definition token (s : string) : Prop := s <> EmptyString /\ no_space s = true.

(** The text is empty or ends with white space. *)
Fixpoint ends_blank (s : string) : bool :=
  match s with
  | EmptyString => true
  | String c EmptyString => Str.isspace c
  | String _ rest => ends_blank rest
  end.

(** The character [c] occurs in [s]. *)
Fixpoint has_char (c : ascii) (s : string) : bool :=
  match s with
  | EmptyString => false
  | String d rest => Ascii.eqb d c || has_char c rest
  end.

(** After a file that a step should have left is found missing, a run
    does nothing more than report the error. *)
Fixpoint aborts_when_missing (t : list event) : bool :=
  match t with
  | [] => true
  | e :: later =>
      match e with
      | Probed _ false =>
          match later with
          | [Printed line] => String.prefix "Error" line
          | _ => false
          end
      | _ => true
      end
      && aborts_when_missing later
  end.


(** ** The scripts *)

Local Open Scope py_scope.

(** The names of the disk step. *)
Record Disk := mkDisk {
  disk_name : string;
  output_d81 : string;
  local_filename : string
}.

(** How the session loop stands when the model stops following it: the
    script has ended normally, has been ended by an exception nobody
    caught, or waits at the top of a further iteration. *)
Inductive status :=
| Exited
| Crashed (e : exn)
| Prompting.

Section Steps.

Context {lib : Library}.

Definition colors : string := "128".
Definition depth : string := "7".
Definition density : string := "72".

Definition convert_command (input_image output_ppm : string) : command :=
  Argv [ "convert"; "-units"; "PixelsPerInch"; input_image;
         "-resize"; "320x200"; "-background"; "black";
         "-gravity"; "center"; "-extent"; "320x200"; "+dither";
         "-colors"; colors; "-depth"; depth; "-density"; density;
         output_ppm ].

Definition ppmtoilbm_command (output_ppm output_iff : string) : command :=
  Shell ("ppmtoilbm -aga -normal -fixplanes 7 " ++ output_ppm ++ " > " ++ output_iff).

Definition cc1541_command (disk_name local_filename output_iff output_d81 : string)
  : command :=
  Argv [ "cc1541"; "-n"; disk_name; "-f"; local_filename; "-w"; output_iff;
         output_d81 ].

Definition petcat_command (loader_prg loader_bas : string) : command :=
  Argv [ "petcat"; "-w65"; "-o"; loader_prg; "--"; loader_bas ].

Definition cc1541_add_prg_command (disk_name base_name loader_prg output_d81 : string)
  : command :=
  Argv [ "cc1541"; "-n"; disk_name; "-f"; base_name; "-w"; loader_prg;
         output_d81 ].

(** The four lines of the BASIC loader. *)
Definition loader_text (local_filename disk_name : string) : string :=
  "10 screen 320,200,7" ++ newline ++
  "20 loadiff " ++ dquote ++ local_filename ++ dquote ++
    ",u9: rem considering " ++ disk_name ++ ".d81 is mounted on unit 9" ++ newline ++
  "30 getkey a$" ++ newline ++
  "40 screen close" ++ newline.

(** Step 3 of the colour analysis: the 4-bit reduction of the PPM file,
    in place, and the second conversion to IFF. *)
Definition reduce_and_reconvert (output_ppm output_iff : string) : M unit :=
  img <- Image_open output_ppm ppm_image ;;
  img <- lift (reduce_to_4bit_color Image_convert img) ;;
  Image_save output_ppm img ppm_saved ;;
  print "Color values reduced to 4 bits per channel (MEGA65 compatibility)." ;;
  subprocess_run (ppmtoilbm_command output_ppm output_iff) true rc_ilbm_again ;;
  print ("Final conversion to IFF completed with 4-bit colors. Output file: "
           ++ output_iff).

(** From the prompt for the input image to the check of the IFF file
    (lines 40 to 141 of [IC65_128_2.py], 47 to 148 of [IC65_128_3.py]). *)
Definition to_iff : M Names :=
  input_image <- input "Enter the input image file name (e.g., mega65.jpg): " in_image ;;
  let input_image := Str.strip input_image in
  let names := derive_names input_image in
  let output_ppm := output_ppm names in
  let output_iff := output_iff names in
  try_except
    (print "Running ImageMagick conversion and resizing..." ;;
     subprocess_run (convert_command input_image output_ppm) true rc_convert ;;
     print ("Conversion to PPM completed. Output file: " ++ output_ppm))
    (fun e =>
       match e with
       | CalledProcessError _ _ =>
           Some (print ("Error during ImageMagick conversion: " ++ exn_str e) ;;
                 return_)
       | _ => None
       end) ;;
  found <- os_path_exists output_ppm ppm_exists ;;
  (if negb found then
     print ("Error: PPM file '" ++ output_ppm ++ "' was not created. Exiting.") ;;
     return_
   else ret tt) ;;
  try_except
    (print "Converting PPM to IFF format using ppmtoilbm..." ;;
     result <- subprocess_run_captured (ppmtoilbm_command output_ppm output_iff)
                                       rc_ilbm stderr_ilbm ;;
     let stderr := stderr result in
     if (returncode result =? 0)%Z then
       print ("Conversion to IFF completed successfully. Output file: " ++ output_iff) ;;
       count <- lift (color_count stderr) ;;
       match count with
       | Some color_count =>
           print ("ppmtoilbm detected " ++ Str.of_int color_count ++ " colors.") ;;
           if (128 <=? color_count)%Z then
             print (Str.of_int color_count
                      ++ " colors detected. Proceeding with MEGA65 4-bit color reduction.") ;;
             reduce_and_reconvert output_ppm output_iff
           else
             print "Image has fewer than 128 colors. No further reduction needed."
       | None => ret tt
       end
     else
       print ("Error during PPM to IFF conversion: " ++ stderr) ;;
       return_)
    (fun e =>
       match e with
       | CalledProcessError _ _ =>
           (* the failed call did not capture the output: [e.stderr] is [None] *)
           Some (print ("Error during PPM to IFF conversion: " ++ exn_str e) ;;
                 print "ppmtoilbm output: None" ;;
                 return_)
       | _ => None
       end) ;;
  found <- os_path_exists output_iff iff_exists ;;
  (if negb found then
     print ("Error: IFF file '" ++ output_iff ++ "' was not created.") ;;
     return_
   else ret tt) ;;
  ret names.

(** The creation of the D81 disk image and its check (lines 144 to 170
    of [IC65_128_2.py], 151 to 177 of [IC65_128_3.py]). *)
Definition to_d81 (output_iff : string) : M Disk :=
  disk_name <- input "Enter the name for the D81 disk (e.g., mega65club): " in_disk ;;
  let disk_name := Str.strip disk_name in
  let output_d81 := disk_name ++ ".d81" in
  let local_filename := Path.basename output_iff in
  try_except
    (print ("Creating D81 disk image with the name '" ++ disk_name
              ++ "' and adding '" ++ local_filename ++ "'...") ;;
     subprocess_run (cc1541_command disk_name local_filename output_iff output_d81)
                    true rc_cc1541 ;;
     print ("D81 disk image '" ++ output_d81 ++ "' created successfully with '"
              ++ local_filename ++ "' added to it."))
    (fun e =>
       match e with
       | CalledProcessError _ _ =>
           Some (print ("Error during D81 disk creation: " ++ exn_str e) ;;
                 return_)
       | _ => None
       end) ;;
  found <- os_path_exists output_d81 d81_exists ;;
  (if found then
     print ("D81 disk image '" ++ output_d81 ++ "' created successfully.")
   else
     print "Error: D81 disk image was not created.") ;;
  ret (mkDisk disk_name output_d81 local_filename).

(** Step 4 of the loader variant (lines 180 to 214 of [IC65_128_3.py]). *)
Definition loader (names : Names) (disk : Disk) : M unit :=
  try_except
    (print "Generating the BASIC loader BAS file..." ;;
     let loader_bas := loader_bas names in
     let loader_prg := loader_prg names in
     write_text loader_bas (loader_text (local_filename disk) (disk_name disk))
                bas_written ;;
     print ("Loader BAS file '" ++ loader_bas ++ "' created successfully.") ;;
     subprocess_run (petcat_command loader_prg loader_bas) true rc_petcat ;;
     print ("Loader PRG file '" ++ loader_prg ++ "' created successfully using petcat.") ;;
     subprocess_run
       (cc1541_add_prg_command (disk_name disk) (base_name names) loader_prg
                               (output_d81 disk))
       true rc_cc1541_prg ;;
     print ("Loader PRG '" ++ loader_prg ++ "' added to D81 disk image '"
              ++ output_d81 disk ++ "' successfully."))
    (fun e =>
       match e with
       | CalledProcessError _ _ =>
           Some (print ("Error adding loader PRG to D81 disk image: " ++ exn_str e))
       | _ =>
           Some (print ("Error creating the BASIC loader PRG file: " ++ exn_str e))
       end).

(** [while True: run_conversion(); retry = input(...).strip().lower();
    if retry != 'y': print(...); break], over the answers of the
    successive iterations. *)
Fixpoint session (run_conversion : M unit) (iterations : list Answers)
  : status * list event :=
  match iterations with
  | [] => (Prompting, [])
  | w :: later =>
      match
        (run_conversion ;;
         retry <- input "Do you want to run the script again? (Y/N): " in_retry ;;
         let retry := Str.lower (Str.strip retry) in
         if negb (String.eqb retry "y") then
           print "Exiting the script. Goodbye!" ;;
           ret false
         else ret true) w
      with
      | (Next true, t) => let '(s, t') := session run_conversion later in (s, (t ++ t')%list)
      | (Next false, t) => (Exited, t)
      | (Return, t) => (Exited, t) (* no [return] stands at the top level *)
      | (Throw e, t) => (Crashed e, t)
      end
  end.

End Steps.

Module IC65_128_2.
Section Script.
Context {lib : Library}.

Definition run_conversion : M unit :=
  call (names <- to_iff ;;
        _ <- to_d81 (output_iff names) ;;
        ret tt).

Definition main (iterations : list Answers) : status * list event :=
  session run_conversion iterations.

End Script.
End IC65_128_2.

Module IC65_128_3.
Section Script.
Context {lib : Library}.

Definition run_conversion : M unit :=
  call (names <- to_iff ;;
        disk <- to_d81 (output_iff names) ;;
        loader names disk).

Definition main (iterations : list Answers) : status * list event :=
  session run_conversion iterations.

End Script.
End IC65_128_3.

(** ** Runs that reach the colour analysis *)

(** Either script's [run_conversion]. *)
Definition script {lib : Library} (run : M unit) : Prop :=
  run = IC65_128_2.run_conversion \/ run = IC65_128_3.run_conversion.

(** The answers that bring a run to the colour analysis: the name of the
    image was entered, the conversion to PPM ended with status 0 and left
    its file, and so did the first conversion to IFF. *)
Definition diagnosed (w : Answers) (name : string) : Prop :=
  in_image w = Some name /\ rc_convert w = Ok 0%Z /\ ppm_exists w = true /\
  rc_ilbm w = Ok 0%Z.

(** What such a run has done when it reads the diagnostic text. *)
Definition diagnosis_events (name : string) : list event :=
  let input_image := Str.strip name in
  let names := derive_names input_image in
  [ Prompted "Enter the input image file name (e.g., mega65.jpg): " (Some name);
    Printed "Running ImageMagick conversion and resizing...";
    Ran (convert_command input_image (output_ppm names)) (Ok 0%Z);
    Printed ("Conversion to PPM completed. Output file: " ++ output_ppm names);
    Probed (output_ppm names) true;
    Printed "Converting PPM to IFF format using ppmtoilbm...";
    Ran (ppmtoilbm_command (output_ppm names) (output_iff names)) (Ok 0%Z);
    Printed ("Conversion to IFF completed successfully. Output file: "
               ++ output_iff names) ].

(** The session loop from the end of a run that returned after the
    events [t]: the question, and what the reply leads to. *)
Definition retry_prompt : string := "Do you want to run the script again? (Y/N): ".

Definition resume (run : M unit) (w : Answers) (later : list Answers) (t : list event)
  : status * list event :=
  match in_retry w with
  | None => (Crashed EOFError, (t ++ [Prompted retry_prompt None])%list)
  | Some reply =>
      if String.eqb (Str.lower (Str.strip reply)) "y" then
        (fst (session run later),
         (t ++ Prompted retry_prompt (Some reply) :: snd (session run later))%list)
      else
        (Exited,
         (t ++ [Prompted retry_prompt (Some reply);
                Printed "Exiting the script. Goodbye!"])%list)
  end.

(** ** Sample inputs *)

(** A raster of two rows and two columns. *)
Definition sample_image : Image :=
  mkImage "RGB" 2 2 [(0, 16, 17); (128, 254, 255); (33, 34, 35); (200, 100, 50)].


(** A library whose [convert] only relabels the image. *)
Definition sample_library : Library :=
  {| Image_convert := fun img m => mkImage m (width img) (height img) (data img);
     exn_str := fun _ => "failure" |}.

(** An iteration in which every tool succeeds and every file is found,
    for the image [photo.jpg] and the disk [mega65club], with the given
    diagnostic text of the first conversion to IFF; the user declines to
    go on. *)
Definition sample_answers (diagnostic : string) : Answers :=
  {| in_image := Some "photo.jpg";
     rc_convert := Ok 0%Z;
     ppm_exists := true;
     rc_ilbm := Ok 0%Z;
     stderr_ilbm := diagnostic;
     ppm_image := Ok sample_image;
     ppm_saved := None;
     rc_ilbm_again := Ok 0%Z;
     iff_exists := true;
     in_disk := Some "mega65club";
     rc_cc1541 := Ok 0%Z;
     d81_exists := true;
     bas_written := None;
     rc_petcat := Ok 0%Z;
     rc_cc1541_prg := Ok 0%Z;
     in_retry := Some "n" |}.

(** The same, but the disk authoring ends with status 1. *)
Definition sample_cc1541_fails : Answers :=
  {| in_image := Some "photo.jpg";
     rc_convert := Ok 0%Z;
     ppm_exists := true;
     rc_ilbm := Ok 0%Z;
     stderr_ilbm := "ppmtoilbm: 64 colors found";
     ppm_image := Ok sample_image;
     ppm_saved := None;
     rc_ilbm_again := Ok 0%Z;
     iff_exists := true;
     in_disk := Some "mega65club";
     rc_cc1541 := Ok 1%Z;
     d81_exists := false;
     bas_written := None;
     rc_petcat := Ok 0%Z;
     rc_cc1541_prg := Ok 0%Z;
     in_retry := Some " Y " |}.

(** The same as the first, but the disk authoring, though it ends with
    status 0, leaves no disk image. *)
Definition sample_no_d81 : Answers :=
  {| in_image := Some "photo.jpg";
     rc_convert := Ok 0%Z;
     ppm_exists := true;
     rc_ilbm := Ok 0%Z;
     stderr_ilbm := "ppmtoilbm: 64 colors found";
     ppm_image := Ok sample_image;
     ppm_saved := None;
     rc_ilbm_again := Ok 0%Z;
     iff_exists := true;
     in_disk := Some "mega65club";
     rc_cc1541 := Ok 0%Z;
     d81_exists := false;
     bas_written := None;
     rc_petcat := Ok 0%Z;
     rc_cc1541_prg := Ok 0%Z;
     in_retry := Some "n" |}.

(** ** Further observations and sample inputs *)

(** A pixel whose three channels are among the 16 levels. *)
Definition in_levels (p : Pixel) : Prop :=
  let '(r, g, b) := p in In r levels /\ In g levels /\ In b levels.

(** The number of occurrences of a character in a text. *)
Fixpoint count_char (c : ascii) (s : string) : nat :=
  match s with
  | EmptyString => O
  | String d rest => ((if Ascii.eqb d c then 1 else 0) + count_char c rest)%nat
  end.

(** A message that says the D81 disk image was created. *)
Definition says_d81_created (e : event) : bool :=
  match e with
  | Printed line => String.prefix "D81 disk image" line
  | _ => false
  end.

(** An external tool that ran and ended with status 0. *)
Definition tool_succeeded (e : event) : bool :=
  match e with
  | Ran _ (Ok rc) => (rc =? 0)%Z
  | _ => false
  end.

(** The loader's text was written, the tokenizer ran, the PRG file was
    added to the disk image. *)
Definition is_write (e : event) : bool :=
  match e with
  | Wrote _ _ None => true
  | _ => false
  end.

Definition is_petcat_ok (e : event) : bool :=
  match e with
  | Ran (Argv ("petcat" :: _)) (Ok rc) => (rc =? 0)%Z
  | _ => false
  end.

Definition is_cc1541 (e : event) : bool :=
  match e with
  | Ran (Argv ("cc1541" :: _)) _ => true
  | _ => false
  end.

(** A check that finds its file missing. *)
Definition is_missing (e : event) : bool :=
  match e with
  | Probed _ false => true
  | _ => false
  end.

(** The reply of an iteration lets the session go on. *)
Definition affirmative (w : Answers) : Prop :=
  exists reply, in_retry w = Some reply /\ Str.lower (Str.strip reply) = "y".

(** A text without white space at either end. *)
Definition trimmed (s : string) : Prop :=
  match s with
  | EmptyString => True
  | String c _ => Str.isspace c = false /\ ends_blank s = false
  end.

(** What [int] makes of the digits of a numeral, its sign apart. *)
Definition int_of_digits (negative : bool) (s : string) : outcome Z :=
  match Str.digits 0 0 false s with
  | Some (n, count) =>
      if (Str.max_str_digits <? count)%nat then Raise ValueError
      else Ok (if negative then - n else n)
  | None => Raise ValueError
  end.

(** An image of one row and two columns in another mode than RGB. *)
Definition sample_grey : Image := mkImage "L" 2 1 [(10, 10, 10); (250, 250, 250)].

(** Answers as in [sample_answers], but for the status of the image
    conversion, the presence of the PPM and of the IFF file, and the
    failure to write the loader's text. *)
Definition sample_run (convert_status : outcome Z) (ppm iff : bool)
    (written : option exn) : Answers :=
  {| in_image := Some "photo.jpg";
     rc_convert := convert_status;
     ppm_exists := ppm;
     rc_ilbm := Ok 0%Z;
     stderr_ilbm := "ppmtoilbm: 200 colors found";
     ppm_image := Ok sample_image;
     ppm_saved := None;
     rc_ilbm_again := Ok 0%Z;
     iff_exists := iff;
     in_disk := Some "mega65club";
     rc_cc1541 := Ok 0%Z;
     d81_exists := true;
     bas_written := written;
     rc_petcat := Ok 0%Z;
     rc_cc1541_prg := Ok 0%Z;
     in_retry := Some "y" |}.

(** The standard input ends before the name of the image is entered. *)
Definition sample_eof : Answers :=
  {| in_image := None;
     rc_convert := Ok 0%Z;
     ppm_exists := true;
     rc_ilbm := Ok 0%Z;
     stderr_ilbm := "";
     ppm_image := Ok sample_image;
     ppm_saved := None;
     rc_ilbm_again := Ok 0%Z;
     iff_exists := true;
     in_disk := None;
     rc_cc1541 := Ok 0%Z;
     d81_exists := true;
     bas_written := None;
     rc_petcat := Ok 0%Z;
     rc_cc1541_prg := Ok 0%Z;
     in_retry := None |}.

(** ** Properties of [to_4bit] *)


Lemma in_bytes (v : Z) : channel_ok v -> In v bytes.
Proof.
  intros [Hlo Hhi]. unfold bytes.
  apply in_map_iff. exists (Z.to_nat v). split; [lia|].
  apply in_seq. lia.
Qed.

(** A decidable property checked on the 256 channel values holds of each. *)
Lemma for_all_bytes (P : Z -> bool) :
  forallb P bytes = true -> forall v, channel_ok v -> P v = true.
Proof.
  intros Hall v Hv. rewrite forallb_forall in Hall. apply Hall, in_bytes, Hv.
Qed.

Lemma to_4bit_spec_level (v : Z) : channel_ok v -> to_4bit v = spec_level v.
Proof.
  intros Hv. apply Z.eqb_eq.
  revert v Hv. apply for_all_bytes. vm_compute. reflexivity.
Qed.

(** ** The pixel loop computes a pointwise map *)



Lemma rewritten_all (d0 : list Pixel) (k : nat) :
  (length d0 <= k)%nat -> rewritten d0 k = map to_4bit_pixel d0.
Proof.
  intros Hk. unfold rewritten.
  rewrite take_ge, drop_ge by lia. apply app_nil_r.
Qed.

Lemma length_rewritten (d0 : list Pixel) (k : nat) :
  length (rewritten d0 k) = length d0.
Proof.
  unfold rewritten. rewrite length_app, length_map, length_take, length_drop. lia.
Qed.

Lemma rewritten_lookup (d0 : list Pixel) (k : nat) :
  rewritten d0 k !! k = d0 !! k.
Proof.
  unfold rewritten.
  destruct (decide (k <= length d0)%nat) as [Hk|Hk].
  - rewrite lookup_app_r; rewrite length_map, length_take, Nat.min_l by lia; [|lia].
    rewrite Nat.sub_diag, lookup_drop. f_equal. lia.
  - rewrite take_ge, drop_ge, app_nil_r by lia.
    rewrite !lookup_ge_None_2; [done|lia|rewrite length_map; lia].
Qed.

Lemma rewritten_insert (d0 : list Pixel) (k : nat) (p : Pixel) :
  d0 !! k = Some p ->
  <[k := to_4bit_pixel p]> (rewritten d0 k) = rewritten d0 (S k).
Proof.
  intros Hp. pose proof (lookup_lt_Some _ _ _ Hp) as Hlt.
  unfold rewritten.
  rewrite (take_S_r _ _ _ Hp), map_app, <- app_assoc. simpl.
  rewrite (drop_S _ _ _ Hp).
  rewrite insert_app_r_alt; rewrite length_map, length_take, Nat.min_l by lia; [|lia].
  rewrite Nat.sub_diag. reflexivity.
Qed.

Section ReducerLoop.

Variables (m : string) (w h : nat) (d0 : list Pixel).
Hypothesis Hlen : length d0 = (w * h)%nat.


Lemma pixel_body_step (x y : nat) :
  (x < w)%nat -> (y < h)%nat ->
  pixel_body y x (mkImage m w h (rewritten d0 (y * w + x)))
  = Ok (mkImage m w h (rewritten d0 (S (y * w + x)))).
Proof using Hlen.
  intros Hx Hy.
  assert (Hk : (y * w + x < length d0)%nat) by (rewrite Hlen; nia).
  destruct (lookup_lt_is_Some_2 d0 _ Hk) as [p Hp].
  unfold pixel_body, getpixel, putpixel. cbn [width height data mode].
  destruct (Nat.ltb_spec x w); [|lia].
  destruct (Nat.ltb_spec y h); [|lia].
  cbn [andb]. rewrite rewritten_lookup, Hp. cbn [obind].
  destruct p as [[r g] b].
  rewrite length_rewritten.
  destruct (Nat.ltb_spec (y * w + x) (length d0)); [|lia].
  f_equal. f_equal. apply (rewritten_insert d0 _ (r, g, b) Hp).
Qed.

Lemma row_loop (y : nat) (n x0 : nat) :
  (y < h)%nat -> (x0 + n = w)%nat ->
  for_each (seq x0 n) (pixel_body y) (mkImage m w h (rewritten d0 (y * w + x0)))
  = Ok (mkImage m w h (rewritten d0 (S y * w))).
Proof using Hlen.
  intros Hy. revert x0. induction n as [|n IH]; intros x0 Hx.
  - cbn [seq for_each]. do 3 f_equal. lia.
  - cbn [seq for_each]. rewrite pixel_body_step by lia. cbn [obind].
    replace (S (y * w + x0)) with (y * w + S x0)%nat by lia.
    apply IH. lia.
Qed.

Lemma image_loop (n y0 : nat) :
  (y0 + n = h)%nat ->
  for_each (seq y0 n)
    (fun y img => for_each (range (width img)) (pixel_body y) img)
    (mkImage m w h (rewritten d0 (y0 * w)))
  = Ok (mkImage m w h (map to_4bit_pixel d0)).
Proof using Hlen.
  revert y0. induction n as [|n IH]; intros y0 Hy.
  - cbn [seq for_each]. do 2 f_equal. apply rewritten_all. rewrite Hlen. nia.
  - cbn [seq for_each]. cbn [width]. unfold range.
    replace (y0 * w)%nat with (y0 * w + 0)%nat at 1 by lia.
    rewrite row_loop by lia. cbn [obind]. apply IH. lia.
Qed.

End ReducerLoop.

(** On a raster the reducer returns, and its result is the image of the
    same mode and size whose pixels are the [to_4bit] images of the
    original ones, in place. *)
Lemma reduce_to_4bit_color_map (convert : Image -> string -> Image) (img : Image) :
  raster img ->
  reduce_to_4bit_color convert img
  = Ok (mkImage (mode img) (width img) (height img) (map to_4bit_pixel (data img))).
Proof.
  intros [Hmode Hlen]. unfold reduce_to_4bit_color.
  rewrite Hmode. cbn [String.eqb Ascii.eqb Bool.eqb].
  destruct img as [m w h d]. cbn [mode width height data] in *.
  subst m. exact (image_loop "RGB" w h d Hlen h 0%nat eq_refl).
Qed.

(** An image in another mode is first converted; when the conversion
    gives one pixel per coordinate, the reducer rewrites the converted
    image in the same way. *)
Lemma reduce_to_4bit_color_coerced (convert : Image -> string -> Image) (img : Image) :
  mode img <> "RGB" ->
  let rgb := convert img "RGB" in
  length (data rgb) = (width rgb * height rgb)%nat ->
  reduce_to_4bit_color convert img
  = Ok (mkImage (mode rgb) (width rgb) (height rgb) (map to_4bit_pixel (data rgb))).
Proof.
  intros Hmode rgb Hlen. unfold reduce_to_4bit_color.
  apply String.eqb_neq in Hmode. rewrite Hmode. fold rgb.
  destruct rgb as [m w h d]. cbn [mode width height data] in *.
  exact (image_loop m w h d Hlen h 0%nat eq_refl).
Qed.

(** ** The claims on the Pixel Depth Reducer *)

(** C1: on every raster image whose channel values lie in [0,255] the
    reducer returns an image of the same size (and mode) in which each
    pixel's red, green and blue value [v] is replaced by
    [floor(v / 255 * 15) * 17], no pixel being left as it was read. *)
Theorem reduce_to_4bit_color_spec (convert : Image -> string -> Image) (img : Image) :
  raster img ->
  Forall pixel_ok (data img) ->
  exists out,
    reduce_to_4bit_color convert img = Ok out /\
    width out = width img /\ height out = height img /\ mode out = mode img /\
    data out = map spec_pixel (data img) /\
    (forall x y, (x < width img)%nat -> (y < height img)%nat ->
       exists p, getpixel img x y = Ok p /\ getpixel out x y = Ok (spec_pixel p)).
Proof.
  intros Hraster Hok.
  assert (Hmap : map to_4bit_pixel (data img) = map spec_pixel (data img)).
  { apply map_ext_in. intros [[r g] b] Hin.
    rewrite List.Forall_forall in Hok. destruct (Hok _ Hin) as (Hr & Hg & Hb).
    cbn. rewrite !to_4bit_spec_level by assumption. reflexivity. }
  eexists. split; [apply reduce_to_4bit_color_map, Hraster|].
  cbn [width height mode data]. repeat split; [exact Hmap|].
  intros x y Hx Hy. destruct Hraster as [_ Hlen].
  assert (Hk : (y * width img + x < length (data img))%nat) by (rewrite Hlen; nia).
  destruct (lookup_lt_is_Some_2 _ _ Hk) as [p Hp].
  exists p. unfold getpixel. cbn [width height data].
  destruct (Nat.ltb_spec x (width img)); [|lia].
  destruct (Nat.ltb_spec y (height img)); [|lia].
  cbn [andb]. rewrite Hp, Hmap, list_lookup_fmap, Hp. split; reflexivity.
Qed.

Lemma reduce_to_4bit_color_spec_witness :
  exists out,
    reduce_to_4bit_color (fun img _ => img) sample_image = Ok out /\
    width out = 2%nat /\ height out = 2%nat /\ mode out = "RGB" /\
    data out = map spec_pixel (data sample_image) /\
    (forall x y, (x < 2)%nat -> (y < 2)%nat ->
       exists p, getpixel sample_image x y = Ok p /\ getpixel out x y = Ok (spec_pixel p)).
Proof.
  apply (reduce_to_4bit_color_spec (fun img _ => img) sample_image).
  - split; reflexivity.
  - unfold sample_image, pixel_ok, channel_ok; cbn [data].
    repeat (apply Forall_cons; split; [lia|]). apply Forall_nil. exact I.
Defined.

(** C2: for every channel value in [0,255], [to_4bit] gives one of the 16
    levels 0, 17, 34, ..., 255, and it is monotonic non-decreasing. *)
Theorem to_4bit_levels_monotone (v w : Z) :
  channel_ok v -> channel_ok w ->
  In (to_4bit v) levels /\ (v <= w -> to_4bit v <= to_4bit w).
Proof.
  intros Hv Hw.
  rewrite (to_4bit_spec_level v Hv), (to_4bit_spec_level w Hw).
  assert (Hfloor : forall u, channel_ok u -> spec_level u = 17 * (u / 17)).
  { intros u Hu. apply Z.eqb_eq. revert u Hu. apply for_all_bytes.
    vm_compute. reflexivity. }
  rewrite !Hfloor by assumption. unfold channel_ok in *. split.
  - unfold levels. apply in_map_iff. exists (Z.to_nat (v / 17)).
    assert (0 <= v / 17 < 16) by (split; [apply Z.div_pos; lia|apply Z.div_lt_upper_bound; lia]).
    split; [lia|apply in_seq; lia].
  - intros Hle. apply Z.mul_le_mono_nonneg_l; [lia|].
    apply Z.div_le_mono; lia.
Qed.

Lemma to_4bit_levels_monotone_witness :
  In (to_4bit 100) levels /\ (100 <= 200 -> to_4bit 100 <= to_4bit 200).
Proof.
  apply (to_4bit_levels_monotone 100 200); unfold channel_ok; lia.
Defined.

(** C3: the reduction is idempotent: [to_4bit (to_4bit v) = to_4bit v]
    for every channel value in [0,255], it fixes each level [17 k] for
    [k] in [0,15], and reducing a reduced raster image changes nothing. *)
Theorem to_4bit_idempotent (convert : Image -> string -> Image) :
  (forall v, channel_ok v -> to_4bit (to_4bit v) = to_4bit v) /\
  (forall k, 0 <= k <= 15 -> to_4bit (17 * k) = 17 * k) /\
  (forall img, raster img -> Forall pixel_ok (data img) ->
     obind (reduce_to_4bit_color convert img) (reduce_to_4bit_color convert)
     = reduce_to_4bit_color convert img).
Proof.
  assert (Hidem : forall v, channel_ok v -> to_4bit (to_4bit v) = to_4bit v).
  { intros v Hv. apply Z.eqb_eq. revert v Hv. apply for_all_bytes.
    vm_compute. reflexivity. }
  split; [exact Hidem|]. split.
  - intros k Hk.
    assert (Hin : In k (map Z.of_nat (seq 0 16))).
    { apply in_map_iff. exists (Z.to_nat k). split; [lia|apply in_seq; lia]. }
    clear Hk. revert k Hin. apply List.Forall_forall.
    repeat (apply Forall_cons; split; [vm_compute; reflexivity|]). apply Forall_nil. exact I.
  - intros img Hraster Hok.
    rewrite (reduce_to_4bit_color_map convert img Hraster). cbn [obind].
    rewrite reduce_to_4bit_color_map; cbn [mode width height data].
    + f_equal. f_equal. rewrite map_map. apply map_ext_in.
      intros [[r g] b] Hin. rewrite List.Forall_forall in Hok.
      destruct (Hok _ Hin) as (Hr & Hg & Hb).
      cbn. rewrite !Hidem by assumption. reflexivity.
    + destruct Hraster as [Hmode Hlen]. split; cbn [mode width height data];
        [assumption|rewrite length_map; assumption].
Qed.

Lemma to_4bit_idempotent_witness :
  to_4bit (to_4bit 200) = to_4bit 200 /\ to_4bit (17 * 7) = 17 * 7 /\
  obind (reduce_to_4bit_color (fun img _ => img) sample_image)
        (reduce_to_4bit_color (fun img _ => img))
  = reduce_to_4bit_color (fun img _ => img) sample_image.
Proof.
  destruct (to_4bit_idempotent (fun img _ => img)) as (Hv & Hk & Himg).
  split; [apply Hv; unfold channel_ok; lia|].
  split; [apply Hk; lia|].
  apply Himg.
  - split; reflexivity.
  - unfold sample_image, pixel_ok, channel_ok; cbn [data].
    repeat (apply Forall_cons; split; [lia|]). apply Forall_nil. exact I.
Defined.

(** ** Texts: concatenation, slices, occurrences *)

Lemma append_nil_r (s : string) : s ++ "" = s.
Proof. induction s as [|c s IH]; cbn; [reflexivity|now rewrite IH]. Qed.

Lemma append_assoc (a b c : string) : (a ++ b) ++ c = a ++ b ++ c.
Proof. induction a as [|x a IH]; cbn; [reflexivity|now rewrite IH]. Qed.

Lemma length_append (a b : string) :
  String.length (a ++ b) = (String.length a + String.length b)%nat.
Proof. induction a as [|x a IH]; cbn; [reflexivity|now rewrite IH]. Qed.

Lemma take_append (a b : string) : Str.take (String.length a) (a ++ b) = a.
Proof. induction a as [|x a IH]; cbn; [now destruct b|now rewrite IH]. Qed.

Lemma drop_append (a b : string) : Str.drop (String.length a) (a ++ b) = b.
Proof. induction a as [|x a IH]; cbn; [now destruct b|exact IH]. Qed.

Lemma take_drop (n : nat) (s : string) : Str.take n s ++ Str.drop n s = s.
Proof.
  revert s. induction n as [|n IH]; intros [|c s]; cbn; try reflexivity.
  now rewrite IH.
Qed.

Lemma prefix_nil_r (sub : string) : sub <> "" -> String.prefix sub "" = false.
Proof. destruct sub; [congruence|reflexivity]. Qed.

(** [sub in s] holds exactly when [sub] occurs in [s] somewhere. *)
Lemma contains_occurs (sub s : string) :
  Str.contains sub s = true <-> exists n, occurs_at sub s n.
Proof.
  unfold occurs_at. induction s as [|c s IH].
  - cbn [Str.contains]. rewrite orb_false_r. split.
    + intros H. exists 0%nat. exact H.
    + intros [[|n] H]; exact H.
  - cbn [Str.contains]. rewrite orb_true_iff, IH. split.
    + intros [H|[n H]]; [exists 0%nat|exists (S n)]; exact H.
    + intros [[|n] H]; [left|right; exists n]; exact H.
Qed.

Lemma first_at_contains (sub s : string) (n : nat) :
  first_at sub s n -> Str.contains sub s = true.
Proof. intros [H _]. apply contains_occurs. exists n. exact H. Qed.

(** A text that occurs has a first occurrence. *)
Lemma first_at_exists (sub s : string) :
  Str.contains sub s = true -> exists n, first_at sub s n.
Proof.
  induction s as [|c s IH]; cbn [Str.contains].
  - rewrite orb_false_r. intros H. exists 0%nat. split; [exact H|]. intros k Hk. lia.
  - destruct (String.prefix sub (String c s)) eqn:Hhere; cbn [orb].
    + intros _. exists 0%nat. split; [exact Hhere|]. intros k Hk. lia.
    + intros Hlater. destruct (IH Hlater) as (n & Hocc & Hfirst).
      exists (S n). split; [exact Hocc|].
      intros [|k] Hk Hat.
      * unfold occurs_at in Hat. cbn [Str.drop] in Hat. congruence.
      * apply (Hfirst k); [lia|exact Hat].
Qed.

Lemma first_at_tail (sub : string) (c : ascii) (s : string) (n : nat) :
  first_at sub (String c s) (S n) -> first_at sub s n.
Proof.
  intros [Hocc Hfirst]. split; [exact Hocc|].
  intros k Hk Hat. apply (Hfirst (S k)); [lia|exact Hat].
Qed.

(** The first piece of [s.split(sub)] is the text before the first
    occurrence of [sub]. *)
Lemma split_first (sub s : string) (n : nat) :
  sub <> "" -> first_at sub s n ->
  exists pieces, Str.split sub s = Str.take n s :: pieces.
Proof.
  intros Hsub. unfold Str.split. revert s.
  induction n as [|n IH]; intros s Hfirst.
  - destruct Hfirst as [Hocc _]. unfold occurs_at in Hocc. cbn [Str.drop] in Hocc.
    destruct s as [|c s]; [now rewrite prefix_nil_r in Hocc|].
    cbn [Str.split_from Str.take]. rewrite Hocc. eauto.
  - destruct s as [|c s].
    + destruct Hfirst as [Hocc _]. unfold occurs_at in Hocc. cbn [Str.drop] in Hocc.
      now rewrite prefix_nil_r in Hocc.
    + assert (Hnot : String.prefix sub (String c s) = false).
      { destruct Hfirst as [_ Hfirst]. specialize (Hfirst 0%nat). unfold occurs_at in Hfirst.
        cbn [Str.drop] in Hfirst. destruct (String.prefix sub (String c s)); [|reflexivity].
        exfalso. apply Hfirst; [lia|reflexivity]. }
      destruct (IH s (first_at_tail _ _ _ _ Hfirst)) as [pieces Hpieces].
      cbn [Str.split_from Str.take]. rewrite Hnot, Hpieces. eauto.
Qed.

(** ** Tokens *)

Lemma words_from_blank (ws : string) : blank ws = true -> Str.words_from ws = ("", []).
Proof.
  induction ws as [|c ws IH]; cbn; [reflexivity|].
  intros [Hc Hws]%andb_true_iff. now rewrite (IH Hws), Hc.
Qed.

Lemma words_from_token (tok rest : string) :
  no_space tok = true ->
  Str.words_from (tok ++ rest)
  = (tok ++ fst (Str.words_from rest), snd (Str.words_from rest)).
Proof.
  induction tok as [|c tok IH]; cbn; [now destruct (Str.words_from rest)|].
  intros [Hc Htok]%andb_true_iff. rewrite (IH Htok).
  apply negb_true_iff in Hc. now rewrite Hc.
Qed.

Lemma words_from_cons (c : ascii) (s : string) :
  Str.words_from (String c s)
  = let '(tok, toks) := Str.words_from s in
    if Str.isspace c then
      ("", match tok with EmptyString => toks | _ => tok :: toks end)
    else (String c tok, toks).
Proof. reflexivity. Qed.

(** After a text that ends with white space the tokens of what follows
    come after its own. *)
Lemma words_from_append (pre x : string) :
  pre <> "" -> ends_blank pre = true ->
  Str.words_from (pre ++ x)
  = (fst (Str.words_from pre), (snd (Str.words_from pre) ++ Str.words x)%list).
Proof.
  induction pre as [|c pre IH]; [congruence|]. intros _ Hends.
  destruct pre as [|d pre].
  - cbn in Hends. cbn. unfold Str.words.
    destruct (Str.words_from x) as [tok toks]. now rewrite Hends.
  - assert (Hpre : ends_blank (String d pre) = true) by exact Hends.
    specialize (IH ltac:(congruence) Hpre).
    change (String c (String d pre) ++ x) with (String c (String d pre ++ x)).
    remember (String d pre) as p eqn:Hp. clear Hp Hends Hpre.
    rewrite !words_from_cons, IH.
    destruct (Str.words_from p) as [tok toks]. cbn [fst snd].
    destruct (Str.isspace c); [|reflexivity].
    now destruct tok.
Qed.

Lemma words_append (pre x : string) :
  ends_blank pre = true -> Str.words (pre ++ x) = (Str.words pre ++ Str.words x)%list.
Proof.
  intros Hends. destruct pre as [|c pre]; [reflexivity|].
  unfold Str.words at 1 2. rewrite words_from_append by (congruence || assumption).
  destruct (Str.words_from (String c pre)) as [tok toks]. cbn [fst snd].
  now destruct tok.
Qed.

Lemma words_token (tok ws : string) :
  token tok -> blank ws = true -> Str.words (tok ++ ws) = [tok].
Proof.
  intros [Hne Htok] Hws. unfold Str.words.
  rewrite (words_from_token _ _ Htok), (words_from_blank _ Hws). cbn [fst snd].
  rewrite append_nil_r. destruct tok; [congruence|reflexivity].
Qed.

Lemma last_snoc {A} (l : list A) (x : A) : Str.last (l ++ [x]) = Ok x.
Proof.
  unfold Str.last. rewrite map_app. cbn [map]. rewrite List.last_last. reflexivity.
Qed.

(** The last token of a text that ends with a token and white space. *)
Lemma last_word (pre tok ws : string) :
  ends_blank pre = true -> token tok -> blank ws = true ->
  Str.last (Str.words (pre ++ tok ++ ws)) = Ok tok.
Proof.
  intros Hpre Htok Hws.
  rewrite (words_append _ _ Hpre), (words_token _ _ Htok Hws).
  apply last_snoc.
Qed.

(** ** The Color Count Parser *)

Lemma int_raises (s : string) (e : exn) : Str.int s = Raise e -> e = ValueError.
Proof.
  unfold Str.int. destruct (Str.strip s) as [|c rest].
  - cbn. intros [= <-]. reflexivity.
  - repeat case_match; intros [= <-]; reflexivity.
Qed.

Lemma last_raises {A} (l : list A) (e : exn) : Str.last l = Raise e -> e = IndexError.
Proof. unfold Str.last. case_match; intros [= <-]. reflexivity. Qed.

(** The parser raises nothing but [IndexError] and [ValueError]. *)
Lemma color_count_raises (text : string) (e : exn) :
  color_count text = Raise e -> e = IndexError \/ e = ValueError.
Proof.
  unfold color_count. destruct (Str.contains marker text); [|discriminate].
  destruct (Str.split marker text) as [|before pieces]; cbn [Str.first obind].
  - intros [= <-]. now left.
  - destruct (Str.last (Str.words before)) as [tok|e'] eqn:Hlast; cbn [obind].
    + destruct (Str.int tok) as [n|e'] eqn:Hint; cbn [obind]; [discriminate|].
      intros [= <-]. right. exact (int_raises _ _ Hint).
    + intros [= <-]. left. exact (last_raises _ _ Hlast).
Qed.

(** With the marker first at [n], the parser reads the last token of the
    text before [n]. *)
Lemma color_count_at (text : string) (n : nat) :
  first_at marker text n ->
  color_count text
  = obind (Str.last (Str.words (Str.take n text))) (fun tok =>
    obind (Str.int tok) (fun count => Ok (Some count))).
Proof.
  intros Hfirst. unfold color_count.
  rewrite (first_at_contains _ _ _ Hfirst).
  destruct (split_first marker text n ltac:(discriminate) Hfirst) as [pieces ->].
  reflexivity.
Qed.

Lemma color_count_absent (text : string) :
  (forall n, ~ occurs_at marker text n) -> color_count text = Ok None.
Proof.
  intros Habsent. unfold color_count.
  destruct (Str.contains marker text) eqn:Hin; [|reflexivity].
  apply contains_occurs in Hin. destruct Hin as [n Hn]. now destruct (Habsent n).
Qed.

(** ** File names *)

Lemma has_char_append (c : ascii) (a b : string) :
  has_char c (a ++ b) = has_char c a || has_char c b.
Proof.
  induction a as [|x a IH]; cbn; [reflexivity|]. rewrite IH. apply orb_assoc.
Qed.

Lemma append_split (a a' x y : string) :
  a ++ x = a' ++ y -> (String.length a' <= String.length a)%nat ->
  exists m, a = a' ++ m /\ y = m ++ x.
Proof.
  revert a. induction a' as [|c a' IH]; intros a Heq Hlen.
  - exists a. split; [reflexivity|]. symmetry. exact Heq.
  - destruct a as [|d a]; [cbn in Hlen; lia|].
    cbn in Heq, Hlen. injection Heq as -> Heq.
    destruct (IH a Heq ltac:(lia)) as (m & -> & ->).
    exists m. split; reflexivity.
Qed.

Lemma rfind_from_none (c : ascii) (i : Z) (s : string) :
  has_char c s = false -> Str.rfind_from c i s = -1.
Proof.
  revert i. induction s as [|d s IH]; intros i; cbn; [reflexivity|].
  intros [Hd Hs]%orb_false_iff. rewrite (IH _ Hs), Hd. reflexivity.
Qed.

(** [rfind] gives [-1] when the character is absent, else the index of
    an occurrence after which there is no other. *)
Lemma rfind_from_spec (c : ascii) (i : Z) (s : string) :
  0 <= i ->
  (Str.rfind_from c i s = -1 /\ has_char c s = false) \/
  (exists a b,
     s = a ++ String c b /\ Str.rfind_from c i s = i + Z.of_nat (String.length a) /\
     has_char c b = false).
Proof.
  revert i. induction s as [|d s IH]; intros i Hi; [left; split; reflexivity|].
  cbn [Str.rfind_from has_char].
  destruct (IH (i + 1) ltac:(lia)) as [[Hr Habs] | (a & b & -> & Hr & Hb)].
  - rewrite Hr, Habs. cbn.
    destruct (Ascii.eqb_spec d c) as [-> | Hne].
    + right. exists "", s. cbn. repeat split; [lia|exact Habs].
    + left. split; reflexivity.
  - right. exists (String d a), b. rewrite Hr.
    destruct (Z.leb_spec 0 (i + 1 + Z.of_nat (String.length a))); [|lia].
    cbn [String.length append]. repeat split; [lia|exact Hb].
Qed.

Lemma rfind_from_last (c : ascii) (i : Z) (a b : string) :
  0 <= i -> has_char c b = false ->
  Str.rfind_from c i (a ++ String c b) = i + Z.of_nat (String.length a).
Proof.
  intros Hi Hb. revert i Hi. induction a as [|x a IH]; intros i Hi.
  - cbn. rewrite (rfind_from_none _ _ _ Hb), Ascii.eqb_refl. cbn. lia.
  - cbn [append Str.rfind_from String.length]. rewrite IH by lia.
    destruct (Z.leb_spec 0 (i + 1 + Z.of_nat (String.length a))); lia.
Qed.

Lemma rfind_from_bound (c : ascii) (i : Z) (s : string) :
  0 <= i -> -1 <= Str.rfind_from c i s < i + Z.of_nat (String.length s).
Proof.
  intros Hi.
  destruct (rfind_from_spec c i s Hi) as [[-> _] | (a & b & -> & -> & _)].
  - lia.
  - rewrite length_append. cbn [String.length]. lia.
Qed.

Lemma rfind_from_ignore (c : ascii) (i : Z) (a rest : string) :
  0 <= i -> has_char c rest = false ->
  Str.rfind_from c i (a ++ rest) = Str.rfind_from c i a.
Proof.
  intros Hi Hrest. revert i Hi. induction a as [|x a IH]; intros i Hi.
  - cbn. apply rfind_from_none, Hrest.
  - cbn [append Str.rfind_from]. rewrite IH by lia. reflexivity.
Qed.

Lemma get_append_here (a : string) (c : ascii) (b : string) :
  String.get (String.length a) (a ++ String c b) = Some c.
Proof. induction a as [|x a IH]; cbn; [reflexivity|exact IH]. Qed.

(** The loop of [splitext] finds a character other than a dot when there
    is one between where it starts and the last dot. *)
Lemma has_stem_found (fuel : nat) (p : string) (i d : Z) (k : nat) (c : ascii) :
  0 <= i <= Z.of_nat k -> Z.of_nat k < d ->
  String.get k p = Some c -> c <> "."%char ->
  (Z.of_nat k - i < Z.of_nat fuel) ->
  Path.has_stem fuel p i d = true.
Proof.
  revert i. induction fuel as [|fuel IH]; intros i Hi Hd Hget Hc Hfuel; [lia|].
  cbn [Path.has_stem]. destruct (Z.ltb_spec i d); [|lia].
  destruct (String.get (Z.to_nat i) p) as [x|] eqn:Hx; [|reflexivity].
  destruct (Ascii.eqb_spec x ".") as [-> | Hne]; [|reflexivity].
  assert (i <> Z.of_nat k).
  { intros ->. rewrite Nat2Z.id in Hx. congruence. }
  apply IH; try assumption; lia.
Qed.

(** A name that ends with a dot and an extension, after a file name with
    a character other than a dot: [splitext] splits at that dot. *)
Lemma splitext_extension (dir : string) (c : ascii) (stem e : string) :
  c <> "."%char -> c <> "/"%char -> has_char "/" stem = false ->
  has_char "." e = false -> has_char "/" e = false ->
  Path.splitext (dir ++ String c stem ++ "." ++ e)
  = (dir ++ String c stem, "." ++ e).
Proof.
  intros Hdot Hsep Hstem He_dot He_sep.
  set (base := dir ++ String c stem).
  assert (Hp : dir ++ String c stem ++ "." ++ e = base ++ String "." e).
  { unfold base. rewrite append_assoc. reflexivity. }
  unfold Path.splitext, Str.rfind. rewrite Hp.
  rewrite (rfind_from_last "." 0 base e) by (lia || assumption).
  assert (Hsepidx : Str.rfind_from "/" 0 (base ++ String "." e)
                    = Str.rfind_from "/" 0 dir).
  { unfold base. rewrite append_assoc. apply rfind_from_ignore; [lia|].
    cbn [append has_char]. rewrite has_char_append. cbn [has_char].
    rewrite Hstem, He_sep.
    destruct (Ascii.eqb_spec c "/"); [contradiction|reflexivity]. }
  rewrite Hsepidx.
  pose proof (rfind_from_bound "/" 0 dir ltac:(lia)) as Hbound.
  assert (Hlen : String.length base = (String.length dir + S (String.length stem))%nat).
  { unfold base. rewrite length_append. reflexivity. }
  destruct (Z.ltb_spec (Str.rfind_from "/" 0 dir) (0 + Z.of_nat (String.length base)));
    [|lia].
  rewrite (has_stem_found _ _ _ _ (String.length dir) c).
  - cbn [andb]. rewrite Z.add_0_l, Nat2Z.id, take_append, drop_append. reflexivity.
  - lia.
  - lia.
  - unfold base. rewrite append_assoc. apply get_append_here.
  - exact Hdot.
  - rewrite length_append. lia.
Qed.

(** What [splitext] takes off is nothing, or a dot and a text without
    dot or slash. *)
Lemma splitext_parts (p : string) :
  p = fst (Path.splitext p) ++ snd (Path.splitext p) /\
  (snd (Path.splitext p) = "" \/
   exists e, snd (Path.splitext p) = "." ++ e /\
             has_char "." e = false /\ has_char "/" e = false).
Proof.
  unfold Path.splitext, Str.rfind.
  destruct (Z.ltb_spec (Str.rfind_from "/" 0 p) (Str.rfind_from "." 0 p)) as [Hlt|Hge];
    cbn [andb]; [|split; [symmetry; apply append_nil_r|left; reflexivity]].
  destruct (Path.has_stem _ _ _ _);
    [|split; [symmetry; apply append_nil_r|left; reflexivity]].
  cbn [fst snd]. split; [symmetry; apply take_drop|]. right.
  pose proof (rfind_from_bound "/" 0 p ltac:(lia)) as Hsep.
  destruct (rfind_from_spec "." 0 p ltac:(lia)) as [[Hr _] | (a & b & Hp & Hr & Hb)];
    [lia|].
  rewrite Hr, Z.add_0_l, Nat2Z.id. exists b.
  rewrite Hp at 1. rewrite drop_append. split; [reflexivity|]. split; [exact Hb|].
  destruct (rfind_from_spec "/" 0 p ltac:(lia)) as [[_ Habs] | (a' & b' & Hp' & Hr' & Hb')].
  - rewrite Hp, has_char_append in Habs. cbn [has_char] in Habs.
    apply orb_false_iff in Habs. destruct Habs as [_ Habs].
    apply orb_false_iff in Habs. apply Habs.
  - assert (Hlen : (String.length (a' ++ "/") <= String.length a)%nat).
    { rewrite length_append. cbn [String.length]. lia. }
    assert (Heq : a ++ String "." b = (a' ++ "/") ++ b').
    { rewrite <- Hp, Hp', append_assoc. reflexivity. }
    destruct (append_split _ _ _ _ Heq Hlen) as (m & _ & ->).
    rewrite has_char_append in Hb'. cbn [has_char] in Hb'.
    apply orb_false_iff in Hb'. destruct Hb' as [_ Hb'].
    apply orb_false_iff in Hb'. apply Hb'.
Qed.

(** C8: the Filename Deriver takes the final extension (a dot and what
    follows it in the file name, if any) off the input name and appends
    [.ppm], [.iff] and, for the loader, [.bas] and [.prg] to the base
    name; [photo.jpg] gives [photo.ppm], [photo.iff], [photo.bas] and
    [photo.prg]. *)
Theorem derive_names_strips_extension :
  (forall input_image,
     let names := derive_names input_image in
     (exists ext,
        input_image = base_name names ++ ext /\
        (ext = "" \/
         exists e, ext = "." ++ e /\ has_char "." e = false /\
                   has_char "/" e = false)) /\
     output_ppm names = base_name names ++ ".ppm" /\
     output_iff names = base_name names ++ ".iff" /\
     loader_bas names = base_name names ++ ".bas" /\
     loader_prg names = base_name names ++ ".prg") /\
  (forall dir c stem e,
     c <> "."%char -> c <> "/"%char -> has_char "/" stem = false ->
     has_char "." e = false -> has_char "/" e = false ->
     base_name (derive_names (dir ++ String c stem ++ "." ++ e))
     = dir ++ String c stem) /\
  derive_names "photo.jpg"
  = mkNames "photo" "photo.ppm" "photo.iff" "photo.bas" "photo.prg".
Proof.
  split; [|split; [|reflexivity]].
  - intros input_image names. subst names. unfold derive_names. cbn [base_name
      output_ppm output_iff loader_bas loader_prg].
    split; [|repeat split].
    exists (snd (Path.splitext input_image)). apply splitext_parts.
  - intros dir c stem e Hdot Hsep Hstem He_dot He_sep.
    unfold derive_names. cbn [base_name].
    rewrite splitext_extension by assumption. reflexivity.
Qed.

Lemma derive_names_strips_extension_witness :
  base_name (derive_names ("pics/v1.0/" ++ String "a" "rchive.tar" ++ "." ++ "gz"))
  = "pics/v1.0/" ++ String "a" "rchive.tar".
Proof.
  destruct derive_names_strips_extension as (_ & Hbase & _).
  apply (Hbase "pics/v1.0/" "a"%char "rchive.tar" "gz");
    (discriminate || reflexivity).
Defined.

(** ** Evaluating a run *)

(** Unfolds the statements of the scripts and the answers they read,
    leaving the texts as they are. *)
Ltac run_script :=
  cbv beta iota zeta delta
    [IC65_128_2.run_conversion IC65_128_3.run_conversion IC65_128_2.main IC65_128_3.main
     to_iff to_d81 loader reduce_and_reconvert
     call bind ret return_ try_except lift print input subprocess_run
     subprocess_run_captured os_path_exists Image_open Image_save write_text
     in_image rc_convert ppm_exists rc_ilbm stderr_ilbm ppm_image ppm_saved
     rc_ilbm_again iff_exists in_disk rc_cc1541 d81_exists bas_written rc_petcat
     rc_cc1541_prg in_retry returncode stderr
     andb negb app fst snd];
  rewrite ?Z.eqb_refl.

(** The scrutinee on which the evaluation of a term is stuck. *)
Ltac stuck_on t :=
  lazymatch t with
  | context [match ?x with _ => _ end] => stuck_on x
  | _ => t
  end.

(** Evaluates up to the next answer the run depends on, and splits on it. *)
Ltac split_answer :=
  run_script;
  lazymatch goal with
  | |- ?G => let x := stuck_on G in destruct x eqn:?
  end.

Ltac use_tests :=
  repeat match goal with
         | H : (_ =? _)%Z = _ |- _ => rewrite H
         end.

Ltac use_diagnosed H :=
  match type of H with
  | diagnosed ?w _ =>
      destruct w; unfold diagnosed in H; cbn in H;
      destruct H as (-> & -> & -> & ->)
  end.

Section Runs.

Context {lib : Library}.

Lemma to_iff_parse_error (w : Answers) (name : string) (e : exn) :
  diagnosed w name -> color_count (stderr_ilbm w) = Raise e ->
  to_iff w = (Throw e, diagnosis_events name).
Proof.
  intros Hw Hcount. destruct (color_count_raises _ _ Hcount); subst e;
    use_diagnosed Hw; cbn in Hcount; run_script; rewrite Hcount; run_script;
    reflexivity.
Qed.

Lemma run_throw (run : M unit) (w : Answers) (e : exn) (t : list event) :
  script run -> to_iff w = (Throw e, t) -> run w = (Throw e, t).
Proof.
  intros [-> | ->] H;
    cbv beta iota delta [IC65_128_2.run_conversion IC65_128_3.run_conversion call bind];
    rewrite H; reflexivity.
Qed.


Lemma session_crash (run : M unit) (w : Answers) (later : list Answers)
    (e : exn) (t : list event) :
  run w = (Throw e, t) -> session run (w :: later) = (Crashed e, t).
Proof. intros H. cbn [session]. unfold bind. rewrite H. reflexivity. Qed.

Lemma session_step (run : M unit) (w : Answers) (later : list Answers) (t : list event) :
  run w = (Next tt, t) -> session run (w :: later) = resume run w later t.
Proof.
  intros H. cbn [session]. unfold resume, bind at 1. rewrite H.
  unfold bind, input, print, ret, retry_prompt.
  destruct (in_retry w) as [reply|]; [|reflexivity].
  destruct (String.eqb (Str.lower (Str.strip reply)) "y"); cbn [negb].
  - destruct (session run later) as [s t']. cbn [fst snd].
    rewrite <- !app_assoc. reflexivity.
  - reflexivity.
Qed.

End Runs.

(** ** The claims on the colour-count extraction and the session loop *)

(** C10: when the diagnostic text holds the marker and either no token
    stands before its first occurrence or the token before it is not a
    decimal integer, the extraction raises [IndexError], respectively
    [ValueError]; the handler around it lets it pass, the run ends with
    that exception right after the first conversion, and so does the
    session: nothing is reported and no later step runs. *)
Theorem color_count_error_uncaught {lib : Library} (run : M unit) (w : Answers)
    (later : list Answers) (name : string) (n : nat) :
  script run -> diagnosed w name ->
  first_at marker (stderr_ilbm w) n ->
  Str.words (Str.take n (stderr_ilbm w)) = [] \/
  (exists tok, Str.last (Str.words (Str.take n (stderr_ilbm w))) = Ok tok /\
               Str.int tok = Raise ValueError) ->
  exists e,
    e = (match Str.words (Str.take n (stderr_ilbm w)) with
         | [] => IndexError
         | _ => ValueError
         end) /\
    color_count (stderr_ilbm w) = Raise e /\
    run w = (Throw e, diagnosis_events name) /\
    session run (w :: later) = (Crashed e, diagnosis_events name).
Proof.
  intros Hrun Hw Hfirst Hbad.
  pose proof (color_count_at _ _ Hfirst) as Hcount.
  assert (Hraise : color_count (stderr_ilbm w)
                   = Raise (match Str.words (Str.take n (stderr_ilbm w)) with
                            | [] => IndexError
                            | _ => ValueError
                            end)).
  { rewrite Hcount. destruct Hbad as [Hnone | (tok & Hlast & Hint)].
    - rewrite Hnone. reflexivity.
    - rewrite Hlast. cbn [obind]. rewrite Hint. cbn [obind].
      destruct (Str.words _); [discriminate Hlast|reflexivity]. }
  eexists. split; [reflexivity|]. split; [exact Hraise|].
  pose proof (run_throw run w _ _ Hrun (to_iff_parse_error w name _ Hw Hraise)) as Hthrow.
  split; [exact Hthrow|]. apply session_crash, Hthrow.
Qed.

(** C9: after a run that returned, the loop asks whether to run again,
    and goes through a further iteration exactly when the reply, stripped
    of surrounding white space and lowercased, is the affirmative [y];
    after any other reply it says goodbye and ends. *)
Theorem session_continues_on_yes {lib : Library} (run : M unit) (w : Answers)
    (later : list Answers) (reply : string) (t : list event) :
  script run -> run w = (Next tt, t) -> in_retry w = Some reply ->
  (Str.lower (Str.strip reply) = "y" ->
   session run (w :: later)
   = (fst (session run later),
      (t ++ Prompted retry_prompt (Some reply) :: snd (session run later))%list)) /\
  (Str.lower (Str.strip reply) <> "y" ->
   session run (w :: later)
   = (Exited,
      (t ++ [Prompted retry_prompt (Some reply);
             Printed "Exiting the script. Goodbye!"])%list)).
Proof.
  intros _ Hrun Hreply. rewrite (session_step run w later t Hrun).
  unfold resume. rewrite Hreply. split; intros Hy.
  - rewrite Hy. reflexivity.
  - apply String.eqb_neq in Hy. rewrite Hy. reflexivity.
Qed.

(** ** The failure of an external tool *)

Lemma aborts_on_failure_split (t before after : list event) (e : event) :
  aborts_on_failure t = true -> t = (before ++ e :: after)%list ->
  tool_failed e = true ->
  exists line rest,
    after = Printed line :: rest /\ String.prefix "Error" line = true /\
    forallb is_report rest = true.
Proof.
  revert t. induction before as [|b before IH]; intros t Hok -> Hfailed.
  - cbn in Hok. rewrite Hfailed in Hok.
    destruct after as [|report rest]; [discriminate|].
    apply andb_true_iff in Hok. destruct Hok as [Hok _].
    apply andb_true_iff in Hok. destruct Hok as [Herror Hreports].
    destruct report; try discriminate.
    cbn in Hreports. eauto.
  - cbn [app aborts_on_failure] in Hok.
    apply andb_true_iff in Hok. destruct Hok as [_ Hok].
    exact (IH _ Hok eq_refl Hfailed).
Qed.

Lemma tool_failed_exists (before after : list event) (e : event) :
  tool_failed e = true -> existsb tool_failed (before ++ e :: after) = true.
Proof.
  intros H. rewrite existsb_app. cbn. rewrite H. apply orb_true_r.
Qed.

Ltac check_trace :=
  cbv beta iota zeta delta
    [aborts_on_failure returns_after_failure existsb forallb tool_failed
     is_report is_error_report andb negb orb fst snd];
  use_tests;
  cbv beta iota zeta delta [andb negb orb];
  reflexivity.

Section Failures.

Context {lib : Library}.

Lemma run_2_aborts_on_failure (w : Answers) :
  aborts_on_failure (snd (IC65_128_2.run_conversion w)) = true /\
  returns_after_failure (IC65_128_2.run_conversion w) = true.
Proof.
  destruct w. repeat split_answer. all: split; check_trace.
Qed.

Lemma run_3_aborts_on_failure (w : Answers) :
  aborts_on_failure (snd (IC65_128_3.run_conversion w)) = true /\
  returns_after_failure (IC65_128_3.run_conversion w) = true.
Proof.
  destruct w. repeat split_answer. all: split; check_trace.
Qed.

End Failures.

(** C6: when an external tool (the image conversion, either conversion
    to IFF, the disk authoring, the tokenizer) ends with a nonzero exit
    status, the run does nothing more than report: what follows is an
    error message and further messages, no later step; the run returns to
    the session loop, which goes on as after any run. *)
Theorem tool_failure_aborts_run {lib : Library} (run : M unit) (w : Answers)
    (later : list Answers) (before after : list event) (cmd : command) (rc : Z) :
  script run ->
  snd (run w) = (before ++ Ran cmd (Ok rc) :: after)%list -> rc <> 0%Z ->
  fst (run w) = Next tt /\
  (exists line rest,
     after = Printed line :: rest /\ String.prefix "Error" line = true /\
     forallb is_report rest = true) /\
  session run (w :: later) = resume run w later (snd (run w)).
Proof.
  intros Hrun Htrace Hrc.
  assert (Hfailed : tool_failed (Ran cmd (Ok rc)) = true).
  { cbn. apply negb_true_iff, Z.eqb_neq, Hrc. }
  assert (Hok : aborts_on_failure (snd (run w)) = true /\
                returns_after_failure (run w) = true).
  { destruct Hrun as [-> | ->];
      [apply run_2_aborts_on_failure|apply run_3_aborts_on_failure]. }
  destruct Hok as [Haborts Hreturns].
  assert (Hnext : fst (run w) = Next tt).
  { unfold returns_after_failure in Hreturns.
    destruct (run w) as [r t]. cbn [fst snd] in *.
    rewrite Htrace, (tool_failed_exists _ _ _ Hfailed) in Hreturns.
    destruct r as [[]| |]; [reflexivity|discriminate|discriminate]. }
  split; [exact Hnext|]. split.
  - exact (aborts_on_failure_split _ _ _ _ Haborts Htrace Hfailed).
  - apply session_step. destruct (run w) as [r t]. cbn [fst snd] in *.
    now rewrite Hnext.
Qed.

(** ** What follows the colour analysis *)

Ltac check_quiet :=
  cbv beta iota zeta delta
    [forallb quiet touches_image is_shell_run andb negb snd
     cc1541_command petcat_command cc1541_add_prg_command];
  reflexivity.

Section AfterAnalysis.

Context {lib : Library}.

Lemma to_d81_quiet (iff : string) (w : Answers) :
  forallb quiet (snd (to_d81 iff w)) = true.
Proof. destruct w. repeat split_answer. all: check_quiet. Qed.

Lemma loader_quiet (names : Names) (disk : Disk) (w : Answers) :
  forallb quiet (snd (loader names disk w)) = true.
Proof. destruct w. repeat split_answer. all: check_quiet. Qed.

(** A run does what [to_iff] does, then steps that neither touch an
    image nor convert to IFF; it raises what [to_iff] raises. *)
Lemma run_after_to_iff (run : M unit) (w : Answers) :
  script run ->
  exists rest,
    snd (run w) = (snd (to_iff w) ++ rest)%list /\ forallb quiet rest = true.
Proof.
  intros [-> | ->];
    cbv beta iota delta [IC65_128_2.run_conversion IC65_128_3.run_conversion call bind ret];
    destruct (to_iff w) as [[names| |e] t]; cbn [fst snd];
    try (exists []; split; [symmetry; apply app_nil_r|reflexivity]).
  - pose proof (to_d81_quiet (output_iff names) w) as Hq.
    destruct (to_d81 (output_iff names) w) as [[disk| |e] t']; cbn [fst snd] in *;
      exists t'; (split; [rewrite ?app_nil_r; reflexivity|exact Hq]).
  - pose proof (to_d81_quiet (output_iff names) w) as Hq.
    destruct (to_d81 (output_iff names) w) as [[disk| |e] t']; cbn [fst snd] in *;
      try (exists t'; (split; [rewrite ?app_nil_r; reflexivity|exact Hq])).
    pose proof (loader_quiet names disk w) as Hq'.
    destruct (loader names disk w) as [[[]| |e] t'']; cbn [fst snd] in *;
      exists (t' ++ t'')%list;
      (split; [reflexivity|rewrite forallb_app, Hq, Hq'; reflexivity]).
Qed.

End AfterAnalysis.

Ltac find_in_order :=
  repeat first
    [ apply sublist_nil
    | apply sublist_skip
    | apply sublist_cons ].

Section Analysis.

Context {lib : Library}.

(** Below 128 colours, without a count, or when the extraction raises:
    [to_iff] touches no image and converts to IFF once. *)
Lemma to_iff_no_reduction (w : Answers) (name : string) :
  diagnosed w name ->
  (forall n, color_count (stderr_ilbm w) = Ok (Some n) -> n < 128) ->
  forallb (fun e => negb (touches_image e)) (snd (to_iff w)) = true /\
  length (List.filter is_shell_run (snd (to_iff w))) = 1%nat.
Proof.
  intros Hw Hbelow.
  destruct (color_count (stderr_ilbm w)) as [[n|]|e] eqn:Hcount.
  - specialize (Hbelow n eq_refl). apply Z.leb_gt in Hbelow.
    use_diagnosed Hw. cbn in Hcount. run_script. rewrite Hcount. run_script.
    rewrite Hbelow. repeat split_answer; split; reflexivity.
  - use_diagnosed Hw. cbn in Hcount. run_script. rewrite Hcount.
    repeat split_answer; split; reflexivity.
  - rewrite (to_iff_parse_error w name e Hw Hcount). split; reflexivity.
Qed.

(** Without the marker [to_iff] goes from the first conversion straight
    to the check of the IFF file. *)
Lemma to_iff_no_count (w : Answers) (name : string) :
  diagnosed w name -> color_count (stderr_ilbm w) = Ok None ->
  exists r rest,
    to_iff w
    = (r, (diagnosis_events name
           ++ Probed (output_iff (derive_names (Str.strip name))) (iff_exists w)
           :: rest)%list) /\
    forall e, r <> Throw e.
Proof.
  intros Hw Hcount. use_diagnosed Hw. cbn in Hcount. run_script. rewrite Hcount.
  repeat split_answer; do 2 eexists; (split; [reflexivity|discriminate]).
Qed.

(** From 128 colours on, when the PPM file opens as a raster and is
    saved: [to_iff] opens it, saves its reduction in place and converts
    again. *)
Lemma to_iff_reduction (w : Answers) (name : string) (n : Z) (img : Image) :
  diagnosed w name ->
  color_count (stderr_ilbm w) = Ok (Some n) -> 128 <= n ->
  ppm_image w = Ok img -> raster img -> ppm_saved w = None ->
  let names := derive_names (Str.strip name) in
  [ Opened (output_ppm names) (Ok img);
    Saved (output_ppm names)
          (mkImage (mode img) (width img) (height img) (map to_4bit_pixel (data img)))
          None;
    Ran (ppmtoilbm_command (output_ppm names) (output_iff names)) (rc_ilbm_again w) ]
    `sublist_of` snd (to_iff w).
Proof.
  intros Hw Hcount Hn Himg Hraster Hsaved names. subst names.
  apply Z.leb_le in Hn.
  pose proof (reduce_to_4bit_color_map Image_convert img Hraster) as Hreduce.
  use_diagnosed Hw. cbn in Hcount, Himg, Hsaved. subst.
  run_script. rewrite Hcount. run_script. rewrite Hn. run_script.
  rewrite Hreduce. repeat split_answer; find_in_order.
Qed.

(** From 128 colours on [to_iff] opens the PPM file, whatever comes of it. *)
Lemma to_iff_reduction_attempted (w : Answers) (name : string) (n : Z) :
  diagnosed w name ->
  color_count (stderr_ilbm w) = Ok (Some n) -> 128 <= n ->
  existsb touches_image (snd (to_iff w)) = true.
Proof.
  intros Hw Hcount Hn. apply Z.leb_le in Hn.
  use_diagnosed Hw. cbn in Hcount.
  run_script. rewrite Hcount. run_script. rewrite Hn.
  repeat split_answer; reflexivity.
Qed.

End Analysis.

Lemma forallb_not_existsb {A} (f : A -> bool) (l : list A) :
  forallb (fun x => negb (f x)) l = true -> existsb f l = false.
Proof.
  induction l as [|x l IH]; [reflexivity|]. cbn.
  intros [Hx Hl]%andb_true_iff. apply negb_true_iff in Hx.
  rewrite Hx, (IH Hl). reflexivity.
Qed.

(** Below 128 colours, without a count, or when the extraction raises, a
    run neither opens nor saves an image and converts to IFF once. *)
Lemma reduction_when_not_128 {lib : Library} (run : M unit) (w : Answers)
    (name : string) :
  script run -> diagnosed w name ->
  (forall n, color_count (stderr_ilbm w) = Ok (Some n) -> n < 128) ->
  forallb (fun e => negb (touches_image e)) (snd (run w)) = true /\
  length (List.filter is_shell_run (snd (run w))) = 1%nat.
Proof.
  intros Hrun Hw Hbelow.
  destruct (run_after_to_iff run w Hrun) as (rest & -> & Hquiet).
  destruct (to_iff_no_reduction w name Hw Hbelow) as [Huntouched Honce].
  assert (Hrest : forallb (fun e => negb (touches_image e)) rest = true /\
                  List.filter is_shell_run rest = []).
  { clear -Hquiet. induction rest as [|e rest IH]; [split; reflexivity|].
    cbn [forallb] in Hquiet. apply andb_true_iff in Hquiet.
    destruct Hquiet as [He Hquiet]. destruct (IH Hquiet) as [IH1 IH2].
    unfold quiet in He. apply andb_true_iff in He. destruct He as [He1 He2].
    cbn [forallb List.filter]. rewrite He1, IH1.
    apply negb_true_iff in He2. rewrite He2. split; [reflexivity|exact IH2]. }
  destruct Hrest as [Hrest1 Hrest2]. split.
  - rewrite forallb_app, Huntouched, Hrest1. reflexivity.
  - rewrite List.filter_app, Hrest2, app_nil_r. exact Honce.
Qed.

(** ** The claims on the colour analysis *)

(** C4: the reducer is applied to the intermediate image exactly when the
    count read from the diagnostic text is 128 or more.  Then the PPM file
    is opened, its reduction is saved in its place and the conversion to
    IFF runs a second time; otherwise (a count below 128, no count, or no
    readable count) the run neither opens nor saves an image and converts
    to IFF only once. *)
Theorem reduction_from_128_colors {lib : Library} (run : M unit) (w : Answers)
    (name : string) :
  script run -> diagnosed w name ->
  let names := derive_names (Str.strip name) in
  (forall n img,
     color_count (stderr_ilbm w) = Ok (Some n) -> 128 <= n ->
     ppm_image w = Ok img -> raster img -> ppm_saved w = None ->
     [ Opened (output_ppm names) (Ok img);
       Saved (output_ppm names)
             (mkImage (mode img) (width img) (height img)
                      (map to_4bit_pixel (data img)))
             None;
       Ran (ppmtoilbm_command (output_ppm names) (output_iff names))
           (rc_ilbm_again w) ]
       `sublist_of` snd (run w)) /\
  ((forall n, color_count (stderr_ilbm w) = Ok (Some n) -> n < 128) ->
   forallb (fun e => negb (touches_image e)) (snd (run w)) = true /\
   length (List.filter is_shell_run (snd (run w))) = 1%nat) /\
  (existsb touches_image (snd (run w)) = true <->
   exists n, color_count (stderr_ilbm w) = Ok (Some n) /\ 128 <= n).
Proof.
  intros Hrun Hw names. split; [|split].
  - intros n img Hcount Hn Himg Hraster Hsaved.
    destruct (run_after_to_iff run w Hrun) as (rest & -> & _).
    apply sublist_inserts_r.
    exact (to_iff_reduction w name n img Hw Hcount Hn Himg Hraster Hsaved).
  - exact (reduction_when_not_128 run w name Hrun Hw).
  - split.
    + intros Htouched.
      destruct (color_count (stderr_ilbm w)) as [[n|]|e] eqn:Hcount.
      * destruct (Z.le_gt_cases 128 n) as [Hn|Hn]; [eauto|].
        assert (Hbelow : forall n', Ok (Some n) = Ok (Some n') -> n' < 128).
        { intros n' [= <-]. lia. }
        rewrite <- Hcount in Hbelow.
        destruct (reduction_when_not_128 run w name Hrun Hw Hbelow) as [Hnone _].
        rewrite (forallb_not_existsb _ _ Hnone) in Htouched. discriminate.
      * assert (Hbelow : forall n', color_count (stderr_ilbm w) = Ok (Some n') -> n' < 128).
        { intros n' Hn'. rewrite Hcount in Hn'. discriminate. }
        destruct (reduction_when_not_128 run w name Hrun Hw Hbelow) as [Hnone _].
        rewrite (forallb_not_existsb _ _ Hnone) in Htouched. discriminate.
      * assert (Hbelow : forall n', color_count (stderr_ilbm w) = Ok (Some n') -> n' < 128).
        { intros n' Hn'. rewrite Hcount in Hn'. discriminate. }
        destruct (reduction_when_not_128 run w name Hrun Hw Hbelow) as [Hnone _].
        rewrite (forallb_not_existsb _ _ Hnone) in Htouched. discriminate.
    + intros (n & Hcount & Hn).
      destruct (run_after_to_iff run w Hrun) as (rest & -> & _).
      rewrite existsb_app, (to_iff_reduction_attempted w name n Hw Hcount Hn).
      reflexivity.
Qed.

Lemma reduction_from_128_colors_witness :
  let run := IC65_128_2.run_conversion (lib := sample_library) in
  let w := sample_answers "ppmtoilbm: 200 colors found" in
  let names := derive_names (Str.strip "photo.jpg") in
  (forall n img,
     color_count (stderr_ilbm w) = Ok (Some n) -> 128 <= n ->
     ppm_image w = Ok img -> raster img -> ppm_saved w = None ->
     [ Opened (output_ppm names) (Ok img);
       Saved (output_ppm names)
             (mkImage (mode img) (width img) (height img)
                      (map to_4bit_pixel (data img)))
             None;
       Ran (ppmtoilbm_command (output_ppm names) (output_iff names))
           (rc_ilbm_again w) ]
       `sublist_of` snd (run w)) /\
  ((forall n, color_count (stderr_ilbm w) = Ok (Some n) -> n < 128) ->
   forallb (fun e => negb (touches_image e)) (snd (run w)) = true /\
   length (List.filter is_shell_run (snd (run w))) = 1%nat) /\
  (existsb touches_image (snd (run w)) = true <->
   exists n, color_count (stderr_ilbm w) = Ok (Some n) /\ 128 <= n).
Proof.
  apply (reduction_from_128_colors (lib := sample_library)
           IC65_128_2.run_conversion
           (sample_answers "ppmtoilbm: 200 colors found") "photo.jpg").
  - left. reflexivity.
  - repeat split; reflexivity.
Defined.

(** C5: when the token that stands right before the first occurrence of
    the marker [colors found] is [tok], the parser gives what [int(tok)]
    gives, 142 for a text that reads [142 colors found]; when the marker
    occurs nowhere, the parser gives no count and raises nothing, and the
    run goes from the first conversion straight to the check of the IFF
    file, without a message, without touching an image and without a
    second conversion. *)
Theorem color_count_read_or_skipped {lib : Library} :
  (forall pre tok ws post,
     ends_blank pre = true -> token tok -> blank ws = true ->
     first_at marker (pre ++ tok ++ ws ++ marker ++ post)
              (String.length (pre ++ tok ++ ws)) ->
     color_count (pre ++ tok ++ ws ++ marker ++ post)
     = obind (Str.int tok) (fun count => Ok (Some count))) /\
  color_count "142 colors found" = Ok (Some 142) /\
  (forall run w name,
     script run -> diagnosed w name ->
     (forall n, ~ occurs_at marker (stderr_ilbm w) n) ->
     color_count (stderr_ilbm w) = Ok None /\
     (exists rest,
        snd (run w)
        = (diagnosis_events name
           ++ Probed (output_iff (derive_names (Str.strip name))) (iff_exists w)
           :: rest)%list) /\
     forallb (fun e => negb (touches_image e)) (snd (run w)) = true /\
     length (List.filter is_shell_run (snd (run w))) = 1%nat).
Proof.
  split; [|split; [vm_compute; reflexivity|]].
  - intros pre tok ws post Hpre Htok Hws Hfirst.
    rewrite (color_count_at _ _ Hfirst).
    replace (pre ++ tok ++ ws ++ marker ++ post)
      with ((pre ++ tok ++ ws) ++ marker ++ post)
      by (rewrite !append_assoc; reflexivity).
    rewrite take_append, (last_word pre tok ws Hpre Htok Hws). reflexivity.
  - intros run w name Hrun Hw Habsent.
    pose proof (color_count_absent _ Habsent) as Hcount.
    split; [exact Hcount|].
    assert (Hbelow : forall n, color_count (stderr_ilbm w) = Ok (Some n) -> n < 128).
    { intros n Hn. rewrite Hcount in Hn. discriminate. }
    destruct (reduction_when_not_128 run w name Hrun Hw Hbelow) as [H1 H2].
    split; [|split; assumption].
    destruct (run_after_to_iff run w Hrun) as (rest & -> & _).
    destruct (to_iff_no_count w name Hw Hcount) as (r & rest' & -> & _).
    cbn [snd]. exists (rest' ++ rest)%list.
    rewrite <- app_assoc. reflexivity.
Qed.

Lemma color_count_read_or_skipped_witness :
  color_count ("ppmtoilbm: " ++ "142" ++ " " ++ marker ++ "")
  = obind (Str.int "142") (fun count => Ok (Some count)) /\
  let run := IC65_128_3.run_conversion (lib := sample_library) in
  let w := sample_answers "ppmtoilbm: warning" in
  color_count (stderr_ilbm w) = Ok None /\
  (exists rest,
     snd (run w)
     = (diagnosis_events "photo.jpg"
        ++ Probed (output_iff (derive_names (Str.strip "photo.jpg"))) (iff_exists w)
        :: rest)%list) /\
  forallb (fun e => negb (touches_image e)) (snd (run w)) = true /\
  length (List.filter is_shell_run (snd (run w))) = 1%nat.
Proof.
  destruct (color_count_read_or_skipped (lib := sample_library))
    as (Hread & _ & Hskip).
  split.
  - apply (Hread "ppmtoilbm: " "142" " " "").
    + reflexivity.
    + split; [discriminate|reflexivity].
    + reflexivity.
    + split; [reflexivity|].
      intros k Hk. unfold occurs_at.
      do 15 (destruct k as [|k]; [vm_compute; discriminate|]).
      cbn in Hk. lia.
  - apply (Hskip IC65_128_3.run_conversion (sample_answers "ppmtoilbm: warning")
             "photo.jpg").
    + right. reflexivity.
    + repeat split; reflexivity.
    + intros n. unfold occurs_at.
      do 19 (destruct n as [|n]; [vm_compute; discriminate|]).
      vm_compute. discriminate.
Defined.

Lemma color_count_error_uncaught_witness :
  let run := IC65_128_2.run_conversion (lib := sample_library) in
  let w := sample_answers "ppmtoilbm: many colors found" in
  exists e,
    e = (match Str.words (Str.take 16 (stderr_ilbm w)) with
         | [] => IndexError
         | _ => ValueError
         end) /\
    color_count (stderr_ilbm w) = Raise e /\
    run w = (Throw e, diagnosis_events "photo.jpg") /\
    session run [w] = (Crashed e, diagnosis_events "photo.jpg").
Proof.
  apply (color_count_error_uncaught (lib := sample_library)
           IC65_128_2.run_conversion
           (sample_answers "ppmtoilbm: many colors found") [] "photo.jpg" 16).
  - left. reflexivity.
  - repeat split; reflexivity.
  - split; [reflexivity|].
    intros k Hk. unfold occurs_at.
    do 16 (destruct k as [|k]; [vm_compute; discriminate|]).
    cbn in Hk. lia.
  - right. exists "many". split; reflexivity.
Defined.

Lemma session_continues_on_yes_witness :
  let run := IC65_128_2.run_conversion (lib := sample_library) in
  let w := sample_cc1541_fails in
  let later := [sample_answers "ppmtoilbm: 200 colors found"] in
  (Str.lower (Str.strip " Y ") = "y" ->
   session run (w :: later)
   = (fst (session run later),
      (snd (run w) ++ Prompted retry_prompt (Some " Y ")
         :: snd (session run later))%list)) /\
  (Str.lower (Str.strip " Y ") <> "y" ->
   session run (w :: later)
   = (Exited,
      (snd (run w) ++ [Prompted retry_prompt (Some " Y ");
                       Printed "Exiting the script. Goodbye!"])%list)).
Proof.
  apply (session_continues_on_yes (lib := sample_library)
           IC65_128_2.run_conversion sample_cc1541_fails
           [sample_answers "ppmtoilbm: 200 colors found"] " Y "
           (snd (IC65_128_2.run_conversion (lib := sample_library)
                   sample_cc1541_fails))).
  - left. reflexivity.
  - vm_compute. reflexivity.
  - reflexivity.
Defined.

Lemma tool_failure_aborts_run_witness :
  let run := IC65_128_3.run_conversion (lib := sample_library) in
  let w := sample_cc1541_fails in
  let later := [sample_answers "ppmtoilbm: 200 colors found"] in
  fst (run w) = Next tt /\
  (exists line rest,
     drop 14 (snd (run w)) = Printed line :: rest /\
     String.prefix "Error" line = true /\
     forallb is_report rest = true) /\
  session run (w :: later) = resume run w later (snd (run w)).
Proof.
  apply (tool_failure_aborts_run (lib := sample_library)
           IC65_128_3.run_conversion sample_cc1541_fails
           [sample_answers "ppmtoilbm: 200 colors found"]
           (take 13 (snd (IC65_128_3.run_conversion (lib := sample_library)
                            sample_cc1541_fails)))
           (drop 14 (snd (IC65_128_3.run_conversion (lib := sample_library)
                            sample_cc1541_fails)))
           (cc1541_command "mega65club" "photo.iff" "photo.iff" "mega65club.d81")
           1).
  - right. reflexivity.
  - vm_compute. reflexivity.
  - lia.
Defined.

(** ** Missing output files *)

Ltac check_missing :=
  cbv beta iota zeta delta [aborts_when_missing andb snd];
  reflexivity.

(** In [IC65_128_2] each check of an output file that finds it missing
    is followed by the error message and nothing else. *)
Lemma run_2_aborts_when_missing {lib : Library} (w : Answers) :
  aborts_when_missing (snd (IC65_128_2.run_conversion w)) = true.
Proof. destruct w. repeat split_answer. all: check_missing. Qed.

(** In both scripts a missing PPM or IFF file ends [to_iff] with
    [return], after the error message. *)
Lemma to_iff_aborts_when_missing {lib : Library} (w : Answers) :
  aborts_when_missing (snd (to_iff w)) = true.
Proof. destruct w. repeat split_answer. all: check_missing. Qed.

(** The check of the D81 file ends in neither of its branches with
    [return]: whether the file is found or not, [to_d81] falls through
    to what follows it. *)
Lemma to_d81_falls_through {lib : Library} (iff : string) (w : Answers) (name : string) :
  in_disk w = Some name -> rc_cc1541 w = Ok 0%Z ->
  exists disk t, to_d81 iff w = (Next disk, t).
Proof.
  intros Hname Hrc. destruct w. cbn in Hname, Hrc. subst.
  repeat split_answer; do 2 eexists; reflexivity.
Qed.

(** C7 (the loader variant departs from it): in [IC65_128_3] the disk
    authoring ends with status 0 but leaves no D81 file; the run reports
    that the disk image was not created and goes on to write the BASIC
    loader, to tokenize it and to add the PRG file to the disk image. *)
Theorem loader_runs_without_d81 :
  let run := IC65_128_3.run_conversion (lib := sample_library) sample_no_d81 in
  fst run = Next tt /\
  drop 15 (snd run)
  = [ Probed "mega65club.d81" false;
      Printed "Error: D81 disk image was not created.";
      Printed "Generating the BASIC loader BAS file...";
      Wrote "photo.bas" (loader_text "photo.iff" "mega65club") None;
      Printed "Loader BAS file 'photo.bas' created successfully.";
      Ran (petcat_command "photo.prg" "photo.bas") (Ok 0%Z);
      Printed "Loader PRG file 'photo.prg' created successfully using petcat.";
      Ran (cc1541_add_prg_command "mega65club" "photo" "photo.prg" "mega65club.d81")
          (Ok 0%Z);
      Printed "Loader PRG 'photo.prg' added to D81 disk image 'mega65club.d81' successfully." ] /\
  aborts_when_missing (snd run) = false /\
  aborts_when_missing
    (snd (IC65_128_2.run_conversion (lib := sample_library) sample_no_d81)) = true.
Proof. vm_compute. repeat split; reflexivity. Qed.

(** ** Replies to the question of the session loop *)

Example reply_Y_continues : Str.lower (Str.strip " Y ") = "y".
Proof. reflexivity. Qed.

Example reply_yes_ends : Str.lower (Str.strip "yes") <> "y".
Proof. discriminate. Qed.

Example reply_empty_ends : Str.lower (Str.strip "") <> "y".
Proof. discriminate. Qed.

(** ** More on the Pixel Depth Reducer *)

(** X1: on a channel value in [0,255] the float computation of [to_4bit]
    is the integer [17 * (v / 17)]: the value is rounded down to a level,
    never up, and loses at most 16. *)
Theorem to_4bit_rounds_down (v : Z) :
  channel_ok v ->
  to_4bit v = 17 * (v / 17) /\ to_4bit v <= v /\ v - to_4bit v <= 16.
Proof.
  intros Hv.
  assert (Heq : to_4bit v = 17 * (v / 17)).
  { apply Z.eqb_eq. revert v Hv. apply for_all_bytes. vm_compute. reflexivity. }
  rewrite Heq. pose proof (Z.div_mod v 17 ltac:(lia)) as Hdiv.
  pose proof (Z.mod_pos_bound v 17 ltac:(lia)) as Hmod. lia.
Qed.

Lemma to_4bit_rounds_down_witness :
  to_4bit 254 = 17 * (254 / 17) /\ to_4bit 254 <= 254 /\ 254 - to_4bit 254 <= 16.
Proof. apply (to_4bit_rounds_down 254). unfold channel_ok. lia. Defined.

(** X2: an image in another mode than RGB is converted first; when the
    conversion gives an RGB raster with channels in [0,255], the reducer
    returns that raster with every channel [v] replaced by
    [floor(v / 255 * 15) * 17]. *)
Theorem reduce_converts_other_modes (convert : Image -> string -> Image) (img : Image) :
  mode img <> "RGB" ->
  let rgb := convert img "RGB" in
  raster rgb -> Forall pixel_ok (data rgb) ->
  reduce_to_4bit_color convert img
  = Ok (mkImage "RGB" (width rgb) (height rgb) (map spec_pixel (data rgb))).
Proof.
  intros Hmode rgb [Hrgb Hlen] Hok.
  rewrite (reduce_to_4bit_color_coerced convert img Hmode Hlen).
  fold rgb. rewrite Hrgb. do 2 f_equal.
  apply map_ext_in. intros [[r g] b] Hin.
  rewrite List.Forall_forall in Hok. destruct (Hok _ Hin) as (Hr & Hg & Hb).
  cbn. rewrite !to_4bit_spec_level by assumption. reflexivity.
Qed.

Lemma reduce_converts_other_modes_witness :
  reduce_to_4bit_color (Image_convert (Library := sample_library)) sample_grey
  = Ok (mkImage "RGB" 2 1 (map spec_pixel (data sample_grey))).
Proof.
  apply (reduce_converts_other_modes (Image_convert (Library := sample_library))
           sample_grey).
  - discriminate.
  - split; reflexivity.
  - unfold sample_grey, sample_library, pixel_ok, channel_ok; cbn.
    repeat (apply Forall_cons; split; [lia|]). apply Forall_nil. exact I.
Defined.

Lemma to_4bit_in_levels (v : Z) : channel_ok v -> In (to_4bit v) levels.
Proof.
  intros Hv.
  assert (H : existsb (Z.eqb (to_4bit v)) levels = true).
  { revert v Hv. apply for_all_bytes. vm_compute. reflexivity. }
  apply existsb_exists in H. destruct H as (x & Hin & Hx).
  apply Z.eqb_eq in Hx. subst x. exact Hin.
Qed.

Lemma to_4bit_pixel_in_levels (p : Pixel) : pixel_ok p -> in_levels (to_4bit_pixel p).
Proof.
  destruct p as [[r g] b]. intros (Hr & Hg & Hb).
  repeat split; apply to_4bit_in_levels; assumption.
Qed.

(** X3: in a run that finds 128 colours or more and opens the PPM file
    as a raster with channels in [0,255], the image saved in its place has
    the same size and every channel of every pixel among the 16 levels,
    and it is saved before the second conversion to IFF runs. *)
Theorem saved_image_in_levels {lib : Library} (run : M unit) (w : Answers)
    (name : string) (n : Z) (img : Image) :
  script run -> diagnosed w name ->
  color_count (stderr_ilbm w) = Ok (Some n) -> 128 <= n ->
  ppm_image w = Ok img -> raster img -> Forall pixel_ok (data img) ->
  ppm_saved w = None ->
  let names := derive_names (Str.strip name) in
  exists out,
    [ Saved (output_ppm names) out None;
      Ran (ppmtoilbm_command (output_ppm names) (output_iff names))
          (rc_ilbm_again w) ]
      `sublist_of` snd (run w) /\
    width out = width img /\ height out = height img /\
    length (data out) = length (data img) /\
    Forall in_levels (data out).
Proof.
  intros Hrun Hw Hcount Hn Himg Hraster Hok Hsaved names.
  exists (mkImage (mode img) (width img) (height img) (map to_4bit_pixel (data img))).
  cbn [width height data]. repeat split.
  - destruct (run_after_to_iff run w Hrun) as (rest & -> & _).
    apply sublist_inserts_r.
    pose proof (to_iff_reduction w name n img Hw Hcount Hn Himg Hraster Hsaved) as Hsub.
    cbv zeta in Hsub. fold names in Hsub.
    etransitivity; [|exact Hsub]. apply sublist_cons. reflexivity.
  - apply length_map.
  - apply Forall_map. eapply Forall_impl; [exact Hok|].
    intros p Hp. apply to_4bit_pixel_in_levels, Hp.
Qed.

Lemma saved_image_in_levels_witness :
  let run := IC65_128_3.run_conversion (lib := sample_library) in
  let w := sample_answers "ppmtoilbm: 200 colors found" in
  let names := derive_names (Str.strip "photo.jpg") in
  exists out,
    [ Saved (output_ppm names) out None;
      Ran (ppmtoilbm_command (output_ppm names) (output_iff names))
          (rc_ilbm_again w) ]
      `sublist_of` snd (run w) /\
    width out = width sample_image /\ height out = height sample_image /\
    length (data out) = length (data sample_image) /\
    Forall in_levels (data out).
Proof.
  apply (saved_image_in_levels (lib := sample_library) IC65_128_3.run_conversion
           (sample_answers "ppmtoilbm: 200 colors found") "photo.jpg" 200 sample_image).
  - right. reflexivity.
  - repeat split; reflexivity.
  - vm_compute. reflexivity.
  - lia.
  - reflexivity.
  - split; reflexivity.
  - unfold sample_image, pixel_ok, channel_ok; cbn [data].
    repeat (apply Forall_cons; split; [lia|]). apply Forall_nil. exact I.
  - reflexivity.
Defined.

(** ** More on texts and file names *)

Lemma lstrip_head (s : string) :
  Str.lstrip s = "" \/ exists c rest, Str.lstrip s = String c rest /\ Str.isspace c = false.
Proof.
  induction s as [|c s IH]; [left; reflexivity|]. cbn [Str.lstrip].
  destruct (Str.isspace c) eqn:Hc; [exact IH|]. right. eauto.
Qed.

Lemma rstrip_ends (s : string) :
  Str.rstrip s = "" \/ ends_blank (Str.rstrip s) = false.
Proof.
  induction s as [|c s IH]; [left; reflexivity|]. cbn [Str.rstrip].
  destruct (Str.rstrip s) as [|d kept].
  - destruct (Str.isspace c) eqn:Hc; [left; reflexivity|right; exact Hc].
  - right. destruct IH as [IH|IH]; [discriminate|exact IH].
Qed.

Lemma rstrip_head (c : ascii) (rest : string) :
  Str.isspace c = false -> exists kept, Str.rstrip (String c rest) = String c kept.
Proof.
  intros Hc. cbn [Str.rstrip]. destruct (Str.rstrip rest); [rewrite Hc|]; eauto.
Qed.

Lemma rstrip_fixed (s : string) : ends_blank s = false -> Str.rstrip s = s.
Proof.
  induction s as [|c s IH]; [discriminate|]. intros Hends. cbn [Str.rstrip].
  destruct s as [|d s].
  - cbn in Hends. cbn. rewrite Hends. reflexivity.
  - rewrite (IH Hends). reflexivity.
Qed.

(** X4: what [strip] returns neither begins nor ends with white space,
    stripping it again changes nothing, and a text of white space only
    is stripped to the empty text: the names entered for the image and
    the disk reach the tools without surrounding white space. *)
Theorem strip_trims (s : string) :
  trimmed (Str.strip s) /\
  Str.strip (Str.strip s) = Str.strip s /\
  (blank s = true -> Str.strip s = "").
Proof.
  unfold Str.strip.
  assert (Hblank : blank s = true -> Str.lstrip s = "").
  { induction s as [|c s IH]; [reflexivity|]. cbn.
    intros [Hc Hs]%andb_true_iff. rewrite Hc. exact (IH Hs). }
  destruct (lstrip_head s) as [Hl | (c & rest & Hl & Hc)]; rewrite Hl in *.
  - repeat split; reflexivity.
  - destruct (rstrip_head c rest Hc) as [kept Hkept].
    destruct (rstrip_ends (String c rest)) as [Hempty | Hends];
      [rewrite Hkept in Hempty; discriminate|].
    rewrite Hkept in *. repeat split.
    + exact Hc.
    + exact Hends.
    + cbn [Str.lstrip]. rewrite Hc. apply rstrip_fixed, Hends.
    + intros Hs. specialize (Hblank Hs). discriminate.
Qed.

Lemma strip_trims_witness : Str.strip "  " = "".
Proof. destruct (strip_trims "  ") as (_ & _ & H). apply H. reflexivity. Defined.

Lemma drop_append_le (j : nat) (a rest : string) :
  (j <= String.length a)%nat -> Str.drop j (a ++ rest) = Str.drop j a ++ rest.
Proof.
  revert a. induction j as [|j IH]; intros a Hj; [now destruct a, rest|].
  destruct a as [|c a]; [cbn in Hj; lia|]. cbn in *. apply IH. lia.
Qed.

Lemma drop_all (j : nat) (a : string) :
  (String.length a <= j)%nat -> Str.drop j a = "".
Proof.
  revert a. induction j as [|j IH]; intros [|c a] Hj; cbn in *;
    try reflexivity; try lia. apply IH. lia.
Qed.

Lemma prefix_decompose (sub s : string) :
  String.prefix sub s = true -> exists rest, s = sub ++ rest.
Proof.
  revert s. induction sub as [|c sub IH]; intros s H; [exists s; reflexivity|].
  destruct s as [|d s]; [discriminate|]. cbn in H.
  destruct (ascii_dec c d) as [->|]; [|discriminate].
  destruct (IH s H) as [rest ->]. exists rest. reflexivity.
Qed.

Lemma prefix_weaken (sub s rest : string) :
  String.prefix sub s = true -> String.prefix sub (s ++ rest) = true.
Proof.
  revert s. induction sub as [|c sub IH]; intros s H; [now destruct (s ++ rest)|].
  destruct s as [|d s]; [discriminate|]. cbn in *.
  destruct (ascii_dec c d); [apply IH, H|discriminate].
Qed.

Lemma prefix_self (sub : string) : String.prefix sub sub = true.
Proof.
  induction sub as [|c sub IH]; [reflexivity|]. cbn.
  destruct (ascii_dec c c); [exact IH|congruence].
Qed.

Lemma occurs_at_weaken (sub a rest : string) (j : nat) :
  sub <> "" -> occurs_at sub a j -> occurs_at sub (a ++ rest) j.
Proof.
  intros Hsub Hat. unfold occurs_at in *.
  destruct (Nat.le_gt_cases j (String.length a)) as [Hj|Hj].
  - rewrite drop_append_le by exact Hj. apply prefix_weaken, Hat.
  - rewrite drop_all in Hat by lia. rewrite prefix_nil_r in Hat by exact Hsub.
    discriminate.
Qed.

Lemma occurs_at_length (sub s : string) (n : nat) :
  sub <> "" -> occurs_at sub s n -> (n <= String.length s)%nat.
Proof.
  intros Hsub Hat. unfold occurs_at in Hat.
  destruct (Nat.le_gt_cases n (String.length s)) as [Hn|Hn]; [exact Hn|].
  rewrite drop_all in Hat by lia. rewrite prefix_nil_r in Hat by exact Hsub.
  discriminate.
Qed.

Lemma length_take (n : nat) (s : string) :
  (n <= String.length s)%nat -> String.length (Str.take n s) = n.
Proof.
  revert s. induction n as [|n IH]; intros [|c s] Hn; cbn in *;
    try reflexivity; try lia. rewrite IH; lia.
Qed.

(** Cutting a text right after the first occurrence of [sub] leaves that
    occurrence the first. *)
Lemma first_at_cut (sub s : string) (n : nat) :
  sub <> "" -> first_at sub s n -> first_at sub (Str.take n s ++ sub) n.
Proof.
  intros Hsub [Hocc Hfirst].
  pose proof (occurs_at_length _ _ _ Hsub Hocc) as Hn.
  destruct (prefix_decompose _ _ Hocc) as [rest Hrest].
  assert (Hs : s = (Str.take n s ++ sub) ++ rest).
  { rewrite append_assoc, <- Hrest. symmetry. apply take_drop. }
  split.
  - unfold occurs_at.
    rewrite <- (length_take n s Hn) at 1. rewrite drop_append. apply prefix_self.
  - intros k Hk Hat. apply (Hfirst k Hk). rewrite Hs.
    apply occurs_at_weaken; assumption.
Qed.

(** X5: the parser reads the text only up to the first occurrence of
    the marker: whatever follows it, a further [colors found] included,
    changes nothing to the count or to the exception. *)
Theorem color_count_ignores_rest (text : string) (n : nat) :
  first_at marker text n ->
  color_count text = color_count (Str.take n text ++ marker).
Proof.
  intros Hfirst.
  pose proof (first_at_cut marker text n ltac:(discriminate) Hfirst) as Hcut.
  rewrite (color_count_at _ _ Hfirst), (color_count_at _ _ Hcut).
  assert (Hn : (n <= String.length text)%nat).
  { apply (occurs_at_length marker); [discriminate|apply Hfirst]. }
  assert (Hcut' : Str.take n (Str.take n text ++ marker) = Str.take n text).
  { rewrite <- (length_take n text Hn) at 1. apply take_append. }
  rewrite Hcut'. reflexivity.
Qed.

Lemma color_count_ignores_rest_witness :
  color_count "x: 64 colors found, then 200 colors found"
  = color_count (Str.take 6 "x: 64 colors found, then 200 colors found" ++ marker).
Proof.
  apply (color_count_ignores_rest "x: 64 colors found, then 200 colors found" 6).
  split; [reflexivity|].
  intros k Hk. unfold occurs_at.
  do 6 (destruct k as [|k]; [vm_compute; discriminate|]). lia.
Defined.

(** X6: [basename] gives the part of a path after its last slash: the
    result holds no slash, the path is a directory part (empty or ending
    with a slash) followed by it, and an extension appended to the path
    is appended to it.  So the IFF file is stored on the disk under its
    name without directories. *)
Theorem basename_is_last_component (p : string) :
  has_char "/" (Path.basename p) = false /\
  (exists dir, p = dir ++ Path.basename p /\
               (dir = "" \/ exists d, dir = d ++ "/")) /\
  (forall ext, has_char "/" ext = false ->
               Path.basename (p ++ ext) = Path.basename p ++ ext).
Proof.
  unfold Path.basename, Str.rfind.
  pose proof (rfind_from_bound "/" 0 p ltac:(lia)) as Hbound.
  split; [|split].
  - destruct (rfind_from_spec "/" 0 p ltac:(lia)) as [[-> Habs] | (a & b & Hp & -> & Hb)].
    + cbn. destruct p; exact Habs.
    + replace (Z.to_nat (0 + Z.of_nat (String.length a) + 1))
        with (String.length (a ++ "/")) by (rewrite length_append; cbn; lia).
      rewrite Hp. replace (a ++ String "/" b) with ((a ++ "/") ++ b)
        by (rewrite append_assoc; reflexivity).
      rewrite drop_append. exact Hb.
  - destruct (rfind_from_spec "/" 0 p ltac:(lia)) as [[-> Habs] | (a & b & Hp & -> & Hb)].
    + exists "". split; [cbn; now destruct p|left; reflexivity].
    + exists (a ++ "/"). split; [|right; exists a; reflexivity].
      replace (Z.to_nat (0 + Z.of_nat (String.length a) + 1))
        with (String.length (a ++ "/")) by (rewrite length_append; cbn; lia).
      rewrite Hp at 2. replace (a ++ String "/" b) with ((a ++ "/") ++ b)
        by (rewrite append_assoc; reflexivity).
      rewrite drop_append. rewrite Hp, append_assoc. reflexivity.
  - intros ext Hext.
    rewrite (rfind_from_ignore "/" 0 p ext ltac:(lia) Hext).
    apply drop_append_le. lia.
Qed.

Lemma basename_is_last_component_witness :
  Path.basename ("pics/photo" ++ ".iff") = Path.basename "pics/photo" ++ ".iff".
Proof.
  destruct (basename_is_last_component "pics/photo") as (_ & _ & H).
  apply H. reflexivity.
Defined.

(** X7: a name without a dot has no extension to take off: it is its
    own base name, and the derived names append their extensions to the
    whole of it. *)
Theorem derive_names_without_dot (input_image : string) :
  has_char "." input_image = false ->
  derive_names input_image
  = mkNames input_image (input_image ++ ".ppm") (input_image ++ ".iff")
            (input_image ++ ".bas") (input_image ++ ".prg").
Proof.
  intros Hdot. unfold derive_names, Path.splitext, Str.rfind.
  rewrite (rfind_from_none "." 0 _ Hdot).
  pose proof (rfind_from_bound "/" 0 input_image ltac:(lia)) as Hbound.
  destruct (Z.ltb_spec (Str.rfind_from "/" 0 input_image) (-1)); [lia|].
  reflexivity.
Qed.

Lemma derive_names_without_dot_witness :
  derive_names "pics/photo"
  = mkNames "pics/photo" "pics/photo.ppm" "pics/photo.iff" "pics/photo.bas"
            "pics/photo.prg".
Proof. apply (derive_names_without_dot "pics/photo"). reflexivity. Defined.

(** ** The loader *)

Lemma split_line (c : ascii) (a rest : string) :
  has_char c a = false ->
  Str.split (String c "") (a ++ String c rest) = a :: Str.split (String c "") rest.
Proof.
  unfold Str.split. induction a as [|x a IH]; intros Ha.
  - cbn. destruct (ascii_dec c c); [|congruence]. now destruct rest.
  - cbn [has_char] in Ha. apply orb_false_iff in Ha. destruct Ha as [Hx Ha].
    cbn [append Str.split_from String.prefix].
    destruct (ascii_dec c x) as [->|Hne]; [rewrite Ascii.eqb_refl in Hx; discriminate|].
    rewrite (IH Ha). reflexivity.
Qed.

(** X8: the text of the BASIC loader is four lines, each ended by a
    newline: the screen mode, the [loadiff] of the file under its name on
    the disk from unit 9 with a remark that names the disk image, the
    wait for a key, and the closing of the screen; this for names that
    hold no newline themselves. *)
Theorem loader_text_lines (local_filename disk_name : string) :
  has_char (ascii_of_nat 10) local_filename = false ->
  has_char (ascii_of_nat 10) disk_name = false ->
  Str.split newline (loader_text local_filename disk_name)
  = [ "10 screen 320,200,7";
      "20 loadiff " ++ dquote ++ local_filename ++ dquote
        ++ ",u9: rem considering " ++ disk_name ++ ".d81 is mounted on unit 9";
      "30 getkey a$";
      "40 screen close";
      "" ].
Proof.
  intros Hlocal Hdisk. unfold loader_text, newline.
  set (nl := ascii_of_nat 10) in *.
  set (line2 := "20 loadiff " ++ dquote ++ local_filename ++ dquote
                  ++ ",u9: rem considering " ++ disk_name
                  ++ ".d81 is mounted on unit 9").
  assert (Hline2 : has_char nl line2 = false).
  { unfold line2. rewrite !has_char_append, Hlocal, Hdisk. reflexivity. }
  replace ("20 loadiff " ++ dquote ++ local_filename ++ dquote
             ++ ",u9: rem considering " ++ disk_name
             ++ ".d81 is mounted on unit 9" ++ String nl ""
             ++ "30 getkey a$" ++ String nl "" ++ "40 screen close" ++ String nl "")
    with (line2 ++ String nl ("30 getkey a$" ++ String nl ("40 screen close"
                                                             ++ String nl "")))
    by (unfold line2; rewrite !append_assoc; reflexivity).
  change ("10 screen 320,200,7" ++ String nl "" ++ ?x)
    with ("10 screen 320,200,7" ++ String nl x).
  rewrite split_line by reflexivity.
  rewrite split_line by exact Hline2.
  rewrite split_line by reflexivity.
  rewrite split_line by reflexivity.
  reflexivity.
Qed.

Lemma loader_text_lines_witness :
  Str.split newline (loader_text "photo.iff" "mega65club")
  = [ "10 screen 320,200,7";
      "20 loadiff " ++ dquote ++ "photo.iff" ++ dquote
        ++ ",u9: rem considering " ++ "mega65club" ++ ".d81 is mounted on unit 9";
      "30 getkey a$";
      "40 screen close";
      "" ].
Proof. apply (loader_text_lines "photo.iff" "mega65club"); reflexivity. Defined.

Section Loader.

Context {lib : Library}.


(** X10: in the loader step the tokenizer runs only after the text was
    written, and the PRG file is added to the disk image only after the
    tokenizer ended with status 0. *)
Theorem loader_steps_in_order (names : Names) (disk : Disk) (w : Answers) :
  let t := snd (loader names disk w) in
  (existsb is_cc1541 t = true -> existsb is_petcat_ok t = true) /\
  (existsb is_petcat_ok t = true -> existsb is_write t = true).
Proof.
  destruct w. repeat split_answer.
  all: cbv beta iota zeta delta
         [existsb is_cc1541 is_petcat_ok is_write snd orb
          petcat_command cc1541_add_prg_command String.eqb Ascii.eqb Bool.eqb];
    use_tests; cbv beta iota zeta delta [orb];
    split; intros H; try reflexivity; try discriminate H.
Qed.

End Loader.


Lemma loader_steps_in_order_witness :
  let t := snd (loader (lib := sample_library) (derive_names "photo.jpg")
                       (mkDisk "mega65club" "mega65club.d81" "photo.iff")
                       (sample_answers "")) in
  existsb is_petcat_ok t = true /\ existsb is_write t = true.
Proof.
  destruct (loader_steps_in_order (lib := sample_library) (derive_names "photo.jpg")
              (mkDisk "mega65club" "mega65club.d81" "photo.iff") (sample_answers ""))
    as [Hadd Htok].
  cbv zeta. split; [apply Hadd|apply Htok, Hadd]; vm_compute; reflexivity.
Defined.

(** ** More on the runs *)

(** Solves [exists before, t = before ++ [a; b]] on a trace that is
    written out. *)
Ltac ends_with k :=
  lazymatch goal with
  | |- exists before, ?t = _ => exists (take (length t - k) t); reflexivity
  end.

Section MoreRuns.

Context {lib : Library}.

(** X11: when the conversion to PPM ends with status 0 but leaves no PPM
    file, either script reports it and returns; no conversion to IFF and
    no disk step follows. *)
Theorem missing_ppm_aborts (run : M unit) (w : Answers) (name : string) :
  script run ->
  in_image w = Some name -> rc_convert w = Ok 0%Z -> ppm_exists w = false ->
  let input_image := Str.strip name in
  let ppm := output_ppm (derive_names input_image) in
  run w
  = (Next tt,
     [ Prompted "Enter the input image file name (e.g., mega65.jpg): " (Some name);
       Printed "Running ImageMagick conversion and resizing...";
       Ran (convert_command input_image ppm) (Ok 0%Z);
       Printed ("Conversion to PPM completed. Output file: " ++ ppm);
       Probed ppm false;
       Printed ("Error: PPM file '" ++ ppm ++ "' was not created. Exiting.") ]).
Proof.
  intros [-> | ->] Hname Hrc Hppm; destruct w; cbn in Hname, Hrc, Hppm; subst;
    run_script; reflexivity.
Qed.

(** X12: when a run reaches the check of the IFF file and finds it
    missing, either script reports it and returns: these two events end
    the run, and no disk step follows. *)
Theorem missing_iff_aborts (run : M unit) (w : Answers) (name : string) :
  script run -> diagnosed w name -> iff_exists w = false ->
  let iff := output_iff (derive_names (Str.strip name)) in
  In (Probed iff false) (snd (run w)) ->
  fst (run w) = Next tt /\
  exists before,
    snd (run w)
    = (before ++ [ Probed iff false;
                   Printed ("Error: IFF file '" ++ iff ++ "' was not created.") ])%list.
Proof.
  intros Hrun Hw Hiff iff. subst iff.
  destruct Hrun as [-> | ->]; use_diagnosed Hw; cbn in Hiff; subst;
    repeat split_answer;
    cbv beta iota zeta delta [fst snd In];
    intros Hin;
    first [ split; [reflexivity|ends_with 2%nat]
          | exfalso; repeat (destruct Hin as [Hin|Hin]; [discriminate Hin|]);
            exact Hin ].
Qed.

(** A run whose first part returns or raises ends there. *)
Lemma run_return (run : M unit) (w : Answers) (t : list event) :
  script run -> to_iff w = (Return, t) -> run w = (Next tt, t).
Proof.
  intros [-> | ->] H;
    cbv beta iota delta [IC65_128_2.run_conversion IC65_128_3.run_conversion call bind];
    rewrite H; reflexivity.
Qed.

(** X13: when the standard input ends at the prompt for the image, a
    run raises [EOFError] having done nothing else, and the session ends
    with it; when it ends at the question that follows a run, the session
    ends with [EOFError] as well. *)
Theorem end_of_input_ends_session (run : M unit) (w : Answers) (later : list Answers) :
  script run ->
  (in_image w = None ->
   let asked :=
     [Prompted "Enter the input image file name (e.g., mega65.jpg): " None] in
   run w = (Throw EOFError, asked) /\
   session run (w :: later) = (Crashed EOFError, asked)) /\
  (forall t, run w = (Next tt, t) -> in_retry w = None ->
   session run (w :: later)
   = (Crashed EOFError, (t ++ [Prompted retry_prompt None])%list)).
Proof.
  intros Hrun. split.
  - intros Hname asked. subst asked.
    assert (H : run w
                = (Throw EOFError,
                   [Prompted "Enter the input image file name (e.g., mega65.jpg): "
                             None])).
    { destruct Hrun as [-> | ->]; destruct w; cbn in Hname; subst;
        run_script; reflexivity. }
    split; [exact H|apply session_crash, H].
  - intros t Ht Hretry. rewrite (session_step run w later t Ht).
    unfold resume. rewrite Hretry. reflexivity.
Qed.

(** X14: when the image converter cannot be started, [subprocess.run]
    raises something else than [CalledProcessError]; the handler of the
    first step lets it pass, the run raises it and the session ends with
    it, without a message. *)
Theorem convert_not_started_uncaught (run : M unit) (w : Answers)
    (later : list Answers) (name : string) (e : exn) :
  script run ->
  in_image w = Some name -> rc_convert w = Raise e ->
  (forall cmd rc, e <> CalledProcessError cmd rc) ->
  let input_image := Str.strip name in
  let done :=
    [ Prompted "Enter the input image file name (e.g., mega65.jpg): " (Some name);
      Printed "Running ImageMagick conversion and resizing...";
      Ran (convert_command input_image (output_ppm (derive_names input_image)))
          (Raise e) ] in
  run w = (Throw e, done) /\ session run (w :: later) = (Crashed e, done).
Proof.
  intros Hrun Hname Hrc He input_image done. subst input_image done.
  match goal with |- ?r = (_, ?t) /\ _ => assert (H : r = (Throw e, t)) end.
  { destruct Hrun as [-> | ->]; destruct w; cbn in Hname, Hrc; subst;
      run_script;
      (destruct e as [c rc| | | |]; [now destruct (He c rc)|..]; reflexivity). }
  split; [exact H|apply session_crash, H].
Qed.

Lemma loader_starts (names : Names) (disk : Disk) (w : Answers) :
  exists later,
    snd (loader names disk w)
    = Printed "Generating the BASIC loader BAS file..." :: later.
Proof. destruct w. repeat split_answer; eexists; reflexivity. Qed.

(** X15: the loader variant does what the basic script does and then,
    when the disk step has fallen through, the loader step: its events
    are those of the basic script followed by nothing or by the loader's,
    and when the basic script raises, it raises the same. *)
Theorem loader_variant_extends (w : Answers) :
  exists rest,
    snd (IC65_128_3.run_conversion w)
    = (snd (IC65_128_2.run_conversion w) ++ rest)%list /\
    (rest = [] \/
     exists later, rest = Printed "Generating the BASIC loader BAS file..." :: later) /\
    (forall e, fst (IC65_128_2.run_conversion w) = Throw e ->
               fst (IC65_128_3.run_conversion w) = Throw e /\ rest = []).
Proof.
  cbv beta iota delta [IC65_128_2.run_conversion IC65_128_3.run_conversion call bind ret].
  destruct (to_iff w) as [[names| |e] t]; cbn [fst snd].
  2: { exists []. rewrite app_nil_r. split; [reflexivity|].
       split; [left; reflexivity|discriminate]. }
  2: { exists []. rewrite app_nil_r. split; [reflexivity|].
       split; [left; reflexivity|]. intros e' [= <-]. split; reflexivity. }
  destruct (to_d81 (output_iff names) w) as [[disk| |e] t']; cbn [fst snd].
  2: { exists []. rewrite !app_nil_r. split; [reflexivity|].
       split; [left; reflexivity|discriminate]. }
  2: { exists []. rewrite !app_nil_r. split; [reflexivity|].
       split; [left; reflexivity|]. intros e' [= <-]. split; reflexivity. }
  destruct (loader_starts names disk w) as [later Hlater].
  destruct (loader names disk w) as [[[]| |e] t'']; cbn [fst snd] in *; subst t'';
    exists (Printed "Generating the BASIC loader BAS file..." :: later);
    rewrite !app_nil_r, <- app_assoc;
    (split; [reflexivity|split; [right; eauto|discriminate]]).
Qed.

End MoreRuns.

(** ** More on the session loop and on the messages *)

Section MoreSessions.

Context {lib : Library}.


Lemma of_int_not_D81 (n : Z) (rest : string) :
  String.prefix "D81 disk image" (Str.of_int n ++ rest) = false.
Proof.
  unfold Str.of_int. destruct (Z.to_int n) as [d|d]; [|reflexivity].
  destruct d; reflexivity.
Qed.

Lemma to_iff_no_d81_message (w : Answers) :
  existsb says_d81_created (snd (to_iff w)) = false.
Proof.
  destruct w. repeat split_answer.
  all: cbv beta iota zeta delta [existsb says_d81_created snd orb];
    rewrite ?of_int_not_D81; reflexivity.
Qed.

Lemma to_d81_message_after_success (iff : string) (w : Answers) :
  existsb says_d81_created (snd (to_d81 iff w)) = true -> rc_cc1541 w = Ok 0%Z.
Proof.
  destruct w. repeat split_answer.
  all: cbv beta iota zeta delta [existsb says_d81_created snd orb];
    try (intros H; discriminate H).
  all: intros _; repeat match goal with
                        | H : (_ =? _)%Z = true |- _ => apply Z.eqb_eq in H; subst
                        end; reflexivity.
Qed.

Lemma loader_no_d81_message (names : Names) (disk : Disk) (w : Answers) :
  existsb says_d81_created (snd (loader names disk w)) = false.
Proof. destruct w. repeat split_answer. all: reflexivity. Qed.

(** X17: a message that says the D81 disk image was created is printed
    only when the disk authoring ended with status 0; when it fails, no
    message of either script claims the disk image. *)
Theorem d81_message_after_success (run : M unit) (w : Answers) :
  script run ->
  existsb says_d81_created (snd (run w)) = true -> rc_cc1541 w = Ok 0%Z.
Proof.
  intros [-> | ->];
    cbv beta iota delta [IC65_128_2.run_conversion IC65_128_3.run_conversion call bind ret];
    pose proof (to_iff_no_d81_message w) as Hiff;
    destruct (to_iff w) as [[names| |e] t]; cbn [fst snd] in *;
    try (intros H; rewrite Hiff in H; discriminate H).
  - pose proof (to_d81_message_after_success (output_iff names) w) as Hd81.
    destruct (to_d81 (output_iff names) w) as [[disk| |e] t']; cbn [fst snd] in *;
      rewrite ?app_nil_r, existsb_app, Hiff; exact Hd81.
  - pose proof (to_d81_message_after_success (output_iff names) w) as Hd81.
    destruct (to_d81 (output_iff names) w) as [[disk| |e] t']; cbn [fst snd] in *;
      try (rewrite ?app_nil_r, existsb_app, Hiff; exact Hd81).
    pose proof (loader_no_d81_message names disk w) as Hloader.
    destruct (loader names disk w) as [[[]| |e] t'']; cbn [fst snd] in *;
      rewrite !existsb_app, Hiff, Hloader, orb_false_r; exact Hd81.
Qed.

(** In [IC65_128_2] a run that found a file missing has returned. *)
Lemma run_2_returns_when_missing (w : Answers) :
  existsb is_missing (snd (IC65_128_2.run_conversion w)) = true ->
  fst (IC65_128_2.run_conversion w) = Next tt.
Proof.
  destruct w. repeat split_answer.
  all: cbv beta iota zeta delta [existsb is_missing fst snd orb];
    first [reflexivity | intros H; discriminate H].
Qed.

End MoreSessions.

Lemma aborts_when_missing_split (t before after : list event) (path : string) :
  aborts_when_missing t = true -> t = (before ++ Probed path false :: after)%list ->
  exists line, after = [Printed line] /\ String.prefix "Error" line = true.
Proof.
  revert t. induction before as [|b before IH]; intros t Hok ->.
  - cbn in Hok. apply andb_true_iff in Hok. destruct Hok as [Hok _].
    destruct after as [|[line| | | | | | ] [|? ?]]; try discriminate. eauto.
  - cbn [app aborts_when_missing] in Hok.
    apply andb_true_iff in Hok. destruct Hok as [_ Hok].
    exact (IH _ Hok eq_refl).
Qed.

(** X18: in [IC65_128_2] each of the three checks (PPM, IFF, D81) that
    finds its file missing is followed by one error message and nothing
    else, and the run returns. *)
Theorem missing_file_aborts_run_2 {lib : Library} (w : Answers)
    (before after : list event) (path : string) :
  snd (IC65_128_2.run_conversion w) = (before ++ Probed path false :: after)%list ->
  fst (IC65_128_2.run_conversion w) = Next tt /\
  exists line, after = [Printed line] /\ String.prefix "Error" line = true.
Proof.
  intros Ht. split.
  - apply run_2_returns_when_missing. rewrite Ht, existsb_app. cbn.
    apply orb_true_r.
  - exact (aborts_when_missing_split _ _ _ _ (run_2_aborts_when_missing w) Ht).
Qed.

(** ** Decimal numerals *)

Lemma digits_step (acc : Z) (count : nat) (after_digit : bool) (c : ascii)
    (rest : string) (d : Z) :
  Ascii.eqb c "_" = false -> Str.digit c = Some d ->
  Str.digits acc count after_digit (String c rest)
  = Str.digits (10 * acc + d) (S count) true rest.
Proof. intros Hc Hd. cbn [Str.digits]. rewrite Hc, Hd. reflexivity. Qed.

Lemma digits_of_uint_acc (l : Decimal.uint) (acc : positive) (count : nat) :
  Str.digits (Z.pos acc) count true (NilEmpty.string_of_uint l)
  = Some (Z.pos (Pos.of_uint_acc l acc), (count + Decimal.nb_digits l)%nat).
Proof.
  revert acc count.
  induction l as [|l IH|l IH|l IH|l IH|l IH|l IH|l IH|l IH|l IH|l IH];
    intros acc count;
    [cbn; rewrite Nat.add_0_r; reflexivity|..];
    cbn [NilEmpty.string_of_uint Pos.of_uint_acc Decimal.nb_digits];
    erewrite digits_step by reflexivity;
    (match goal with
     | |- Str.digits (10 * _ + ?d) _ _ _ = _ =>
         let d' := eval vm_compute in d in change d with d'
     end);
    (match goal with
     | |- Str.digits ?v _ _ _ = Some (Z.pos (Pos.of_uint_acc _ ?p), _) =>
         replace v with (Z.pos p) by lia
     end);
    rewrite IH; do 2 f_equal; lia.
Qed.

Lemma digits_of_uint (l : Decimal.uint) (count : nat) (after_digit : bool) :
  l <> Decimal.Nil \/ after_digit = true ->
  Str.digits 0 count after_digit (NilEmpty.string_of_uint l)
  = Some (Z.of_N (Pos.of_uint l), (count + Decimal.nb_digits l)%nat).
Proof.
  revert count after_digit.
  induction l as [|l IH|l IH|l IH|l IH|l IH|l IH|l IH|l IH|l IH|l IH];
    intros count after_digit Hl.
  1: { destruct Hl as [Hl| ->]; [congruence|]. cbn. rewrite Nat.add_0_r. reflexivity. }
  1: { cbn [NilEmpty.string_of_uint Pos.of_uint Decimal.nb_digits].
       erewrite digits_step by reflexivity. cbn [Z.mul Z.add].
       rewrite IH by (right; reflexivity). do 2 f_equal. lia. }
  all: cbn [NilEmpty.string_of_uint Pos.of_uint Decimal.nb_digits];
    erewrite digits_step by reflexivity;
    (match goal with
     | |- Str.digits (10 * 0 + ?d) _ _ _ = _ =>
         let v := eval vm_compute in (10 * 0 + d) in change (10 * 0 + d) with v
     end);
    rewrite digits_of_uint_acc; cbn [Z.of_N]; do 2 f_equal; lia.
Qed.

Lemma no_space_of_uint (l : Decimal.uint) : no_space (NilEmpty.string_of_uint l) = true.
Proof. induction l; cbn [NilEmpty.string_of_uint no_space]; [reflexivity|..]; exact IHl. Qed.

Lemma length_of_uint (l : Decimal.uint) :
  String.length (NilEmpty.string_of_uint l) = Decimal.nb_digits l.
Proof. induction l; cbn; congruence. Qed.

Lemma no_space_ends (s : string) : s <> "" -> no_space s = true -> ends_blank s = false.
Proof.
  induction s as [|c s IH]; [congruence|]. intros _ [Hc Hs]%andb_true_iff.
  apply negb_true_iff in Hc. destruct s as [|d s]; [exact Hc|].
  apply IH; [discriminate|exact Hs].
Qed.

(** A text without white space is its own [strip]. *)
Lemma strip_no_space (s : string) : no_space s = true -> Str.strip s = s.
Proof.
  intros Hs. unfold Str.strip. destruct s as [|c s]; [reflexivity|].
  pose proof Hs as Hs'. cbn [no_space] in Hs'. apply andb_true_iff in Hs'.
  destruct Hs' as [Hc _]. apply negb_true_iff in Hc.
  cbn [Str.lstrip]. rewrite Hc. apply rstrip_fixed, no_space_ends; [discriminate|exact Hs].
Qed.

Lemma int_unsigned (s : string) :
  no_space s = true ->
  (forall rest, s <> String "-" rest) -> (forall rest, s <> String "+" rest) ->
  Str.int s = int_of_digits false s.
Proof.
  intros Hs Hminus Hplus. unfold Str.int, int_of_digits.
  rewrite (strip_no_space _ Hs).
  destruct s as [|c rest]; [reflexivity|].
  destruct c as [[] [] [] [] [] [] [] []]; try reflexivity.
  - now destruct (Hplus rest).
  - now destruct (Hminus rest).
Qed.

Lemma int_minus (s : string) :
  no_space s = true -> Str.int (String "-" s) = int_of_digits true s.
Proof.
  intros Hs. unfold Str.int, int_of_digits.
  rewrite strip_no_space by exact Hs. reflexivity.
Qed.

Lemma of_uint_unsigned (l : Decimal.uint) :
  (forall rest, NilEmpty.string_of_uint l <> String "-" rest) /\
  (forall rest, NilEmpty.string_of_uint l <> String "+" rest).
Proof. destruct l; split; intros rest; discriminate. Qed.

Lemma of_int_pos (p : positive) :
  Str.of_int (Z.pos p) = NilEmpty.string_of_uint (Pos.to_uint p).
Proof.
  pose proof (DecimalPos.Unsigned.to_uint_nonnil p) as Hnil.
  unfold Str.of_int, Z.to_int, NilZero.string_of_int, NilZero.string_of_uint.
  destruct (Pos.to_uint p); [congruence|..]; reflexivity.
Qed.

Lemma of_int_neg (p : positive) :
  Str.of_int (Z.neg p) = String "-" (NilEmpty.string_of_uint (Pos.to_uint p)).
Proof.
  pose proof (DecimalPos.Unsigned.to_uint_nonnil p) as Hnil.
  unfold Str.of_int, Z.to_int, NilZero.string_of_int, NilZero.string_of_uint.
  destruct (Pos.to_uint p); [congruence|..]; reflexivity.
Qed.

Lemma int_reads_pos (p : positive) :
  (String.length (Str.of_int (Z.pos p)) <= Str.max_str_digits)%nat ->
  Str.int (Str.of_int (Z.pos p)) = Ok (Z.pos p).
Proof.
  pose proof (DecimalPos.Unsigned.to_uint_nonnil p) as Hnil.
  rewrite of_int_pos, length_of_uint. intros Hlen.
  destruct (of_uint_unsigned (Pos.to_uint p)) as [Hminus Hplus].
  rewrite (int_unsigned _ (no_space_of_uint _) Hminus Hplus).
  unfold int_of_digits. rewrite (digits_of_uint _ 0 false (or_introl Hnil)).
  cbn [Nat.add].
  destruct (Nat.ltb_spec Str.max_str_digits (Decimal.nb_digits (Pos.to_uint p)));
    [lia|]. rewrite DecimalPos.Unsigned.of_to. reflexivity.
Qed.

Lemma int_reads_neg (p : positive) :
  (String.length (Str.of_int (Z.pos p)) <= Str.max_str_digits)%nat ->
  Str.int (Str.of_int (Z.neg p)) = Ok (Z.neg p).
Proof.
  pose proof (DecimalPos.Unsigned.to_uint_nonnil p) as Hnil.
  rewrite of_int_pos, of_int_neg, length_of_uint. intros Hlen.
  rewrite (int_minus _ (no_space_of_uint _)).
  unfold int_of_digits. rewrite (digits_of_uint _ 0 false (or_introl Hnil)).
  cbn [Nat.add].
  destruct (Nat.ltb_spec Str.max_str_digits (Decimal.nb_digits (Pos.to_uint p)));
    [lia|]. rewrite DecimalPos.Unsigned.of_to. reflexivity.
Qed.

(** X19: [int] reads back what [str] writes: for every integer whose
    decimal writing has at most 4300 digits, [int(str(n)) = n]. *)
Theorem int_of_str (n : Z) :
  (String.length (Str.of_int (Z.abs n)) <= Str.max_str_digits)%nat ->
  Str.int (Str.of_int n) = Ok n.
Proof.
  destruct n as [|p|p].
  - intros _. reflexivity.
  - change (Z.abs (Z.pos p)) with (Z.pos p). apply int_reads_pos.
  - change (Z.abs (Z.neg p)) with (Z.pos p). apply int_reads_neg.
Qed.

Lemma of_int_token (n : Z) : token (Str.of_int n).
Proof.
  destruct n as [|p|p].
  - split; [discriminate|reflexivity].
  - rewrite of_int_pos. split; [|apply no_space_of_uint].
    pose proof (DecimalPos.Unsigned.to_uint_nonnil p).
    destruct (Pos.to_uint p); [congruence|..]; discriminate.
  - rewrite of_int_neg. split; [discriminate|].
    cbn [no_space]. apply no_space_of_uint.
Qed.

(** X20: when the converter writes the number [n] of colours in
    decimal before its first [colors found], the parser reads [n], and
    the run opens the PPM file for reduction exactly when [128 <= n]. *)
Theorem written_count_decides_reduction {lib : Library} (run : M unit) (w : Answers)
    (name pre ws post : string) (n : Z) :
  script run -> diagnosed w name ->
  stderr_ilbm w = pre ++ Str.of_int n ++ ws ++ marker ++ post ->
  ends_blank pre = true -> blank ws = true ->
  first_at marker (stderr_ilbm w) (String.length (pre ++ Str.of_int n ++ ws)) ->
  (String.length (Str.of_int (Z.abs n)) <= Str.max_str_digits)%nat ->
  color_count (stderr_ilbm w) = Ok (Some n) /\
  (existsb touches_image (snd (run w)) = true <-> 128 <= n).
Proof.
  intros Hrun Hw Htext Hpre Hws Hfirst Hlen.
  assert (Hcount : color_count (stderr_ilbm w) = Ok (Some n)).
  { rewrite (color_count_at _ _ Hfirst), Htext.
    replace (pre ++ Str.of_int n ++ ws ++ marker ++ post)
      with ((pre ++ Str.of_int n ++ ws) ++ marker ++ post)
      by (rewrite !append_assoc; reflexivity).
    rewrite take_append, (last_word pre _ ws Hpre (of_int_token n) Hws).
    cbn [obind].
    assert (Hint : Str.int (Str.of_int n) = Ok n).
    { destruct n as [|p|p];
        [reflexivity|apply int_reads_pos, Hlen|apply int_reads_neg, Hlen]. }
    rewrite Hint. reflexivity. }
  split; [exact Hcount|]. split.
  - intros Htouched. destruct (Z.le_gt_cases 128 n) as [Hn|Hn]; [exact Hn|].
    assert (Hbelow : forall n', color_count (stderr_ilbm w) = Ok (Some n') -> n' < 128).
    { intros n' Hn'. rewrite Hcount in Hn'. injection Hn' as <-. exact Hn. }
    destruct (reduction_when_not_128 run w name Hrun Hw Hbelow) as [Hnone _].
    rewrite (forallb_not_existsb _ _ Hnone) in Htouched. discriminate.
  - intros Hn. destruct (run_after_to_iff run w Hrun) as (rest & -> & _).
    rewrite existsb_app, (to_iff_reduction_attempted w name n Hw Hcount Hn).
    reflexivity.
Qed.

(** X21: while every iteration runs to its end and is answered with
    [y], the session goes on: after the last of them it prompts again,
    and its events are those of the runs in order, each followed by the
    question and its reply. *)
Theorem session_goes_on {lib : Library} (run : M unit) (iterations : list Answers) :
  Forall (fun w => affirmative w /\ fst (run w) = Next tt) iterations ->
  session run iterations
  = (Prompting,
     flat_map (fun w => snd (run w) ++ [Prompted retry_prompt (in_retry w)])%list
              iterations).
Proof.
  induction 1 as [|w later [(reply & Hreply & Hy) Hw] _ IH]; [reflexivity|].
  destruct (run w) as [r t] eqn:Hrun. cbn [fst] in Hw. subst r.
  rewrite (session_step run w later t Hrun). unfold resume.
  rewrite Hreply, Hy, IH. cbn [String.eqb Ascii.eqb Bool.eqb fst snd flat_map].
  rewrite Hrun, Hreply, <- app_assoc. reflexivity.
Qed.

Lemma to_iff_no_cc1541 {lib : Library} (w : Answers) :
  existsb is_cc1541 (snd (to_iff w)) = false.
Proof.
  destruct w. repeat split_answer.
  all: cbv beta iota zeta delta
         [existsb is_cc1541 snd orb convert_command ppmtoilbm_command
          String.eqb Ascii.eqb Bool.eqb];
    reflexivity.
Qed.

Lemma to_d81_falls_through_after_success {lib : Library} (iff : string) (w : Answers) :
  existsb (fun e => is_cc1541 e && tool_succeeded e) (snd (to_d81 iff w)) = true ->
  exists disk, fst (to_d81 iff w) = Next disk.
Proof.
  destruct w. repeat split_answer.
  all: cbv beta iota zeta delta
         [existsb is_cc1541 tool_succeeded fst snd orb andb cc1541_command
          String.eqb Ascii.eqb Bool.eqb];
    use_tests;
    first [ intros _; eexists; reflexivity | intros H; discriminate H ].
Qed.

(** X22: in the loader variant the loader step runs whenever the disk
    authoring of the IFF file has ended with status 0, whether the check
    that follows finds the D81 file or not. *)
Theorem loader_follows_disk_authoring {lib : Library} (w : Answers) :
  let t := snd (IC65_128_3.run_conversion w) in
  existsb (fun e => is_cc1541 e && tool_succeeded e) t = true ->
  In (Printed "Generating the BASIC loader BAS file...") t.
Proof.
  cbv zeta.
  cbv beta iota delta [IC65_128_3.run_conversion call bind ret].
  pose proof (to_iff_no_cc1541 w) as Hiff.
  assert (Hnone : existsb (fun e => is_cc1541 e && tool_succeeded e) (snd (to_iff w))
                  = false).
  { clear -Hiff. induction (snd (to_iff w)) as [|e t IH]; [reflexivity|].
    cbn [existsb] in *. apply orb_false_iff in Hiff. destruct Hiff as [He Ht].
    rewrite He, (IH Ht). reflexivity. }
  destruct (to_iff w) as [[names| |e] t]; cbn [fst snd] in *;
    try (intros H; rewrite Hnone in H; discriminate H).
  pose proof (to_d81_falls_through_after_success (output_iff names) w) as Hd81.
  destruct (to_d81 (output_iff names) w) as [[disk| |e] t']; cbn [fst snd] in *;
    try (rewrite ?app_nil_r, existsb_app, Hnone; intros H;
         destruct (Hd81 H) as [disk Hdisk]; discriminate Hdisk).
  intros _. destruct (loader_starts names disk w) as [later Hlater].
  destruct (loader names disk w) as [[[]| |e] t'']; cbn [fst snd] in *; subst t'';
    apply in_or_app; right; apply in_or_app; right; left; reflexivity.
Qed.

(** ** The further properties at sample inputs *)

Lemma missing_ppm_aborts_witness :
  IC65_128_3.run_conversion (lib := sample_library) (sample_run (Ok 0%Z) false true None)
  = (Next tt,
     [ Prompted "Enter the input image file name (e.g., mega65.jpg): " (Some "photo.jpg");
       Printed "Running ImageMagick conversion and resizing...";
       Ran (convert_command (Str.strip "photo.jpg")
              (output_ppm (derive_names (Str.strip "photo.jpg")))) (Ok 0%Z);
       Printed ("Conversion to PPM completed. Output file: "
                  ++ output_ppm (derive_names (Str.strip "photo.jpg")));
       Probed (output_ppm (derive_names (Str.strip "photo.jpg"))) false;
       Printed ("Error: PPM file '" ++ output_ppm (derive_names (Str.strip "photo.jpg"))
                  ++ "' was not created. Exiting.") ]).
Proof.
  apply (missing_ppm_aborts (lib := sample_library) IC65_128_3.run_conversion
           (sample_run (Ok 0%Z) false true None) "photo.jpg");
    [right|..]; reflexivity.
Defined.

Lemma missing_iff_aborts_witness :
  let run := IC65_128_3.run_conversion (lib := sample_library) in
  let w := sample_run (Ok 0%Z) true false None in
  let iff := output_iff (derive_names (Str.strip "photo.jpg")) in
  fst (run w) = Next tt /\
  exists before,
    snd (run w)
    = (before ++ [ Probed iff false;
                   Printed ("Error: IFF file '" ++ iff ++ "' was not created.") ])%list.
Proof.
  apply (missing_iff_aborts (lib := sample_library) IC65_128_3.run_conversion
           (sample_run (Ok 0%Z) true false None) "photo.jpg").
  - right. reflexivity.
  - repeat split; reflexivity.
  - reflexivity.
  - vm_compute. repeat first [left; reflexivity | right].
Defined.

Lemma end_of_input_ends_session_witness :
  let run := IC65_128_2.run_conversion (lib := sample_library) in
  let asked := [Prompted "Enter the input image file name (e.g., mega65.jpg): " None] in
  run sample_eof = (Throw EOFError, asked) /\
  session run [sample_eof] = (Crashed EOFError, asked).
Proof.
  destruct (end_of_input_ends_session (lib := sample_library)
              IC65_128_2.run_conversion sample_eof [] (or_introl eq_refl))
    as [Hstart _].
  apply Hstart. reflexivity.
Defined.

Lemma convert_not_started_uncaught_witness :
  let run := IC65_128_2.run_conversion (lib := sample_library) in
  let w := sample_run (Raise OSError) true true None in
  let done :=
    [ Prompted "Enter the input image file name (e.g., mega65.jpg): " (Some "photo.jpg");
      Printed "Running ImageMagick conversion and resizing...";
      Ran (convert_command (Str.strip "photo.jpg")
             (output_ppm (derive_names (Str.strip "photo.jpg"))))
          (Raise OSError) ] in
  run w = (Throw OSError, done) /\ session run [w] = (Crashed OSError, done).
Proof.
  apply (convert_not_started_uncaught (lib := sample_library) IC65_128_2.run_conversion
           (sample_run (Raise OSError) true true None) [] "photo.jpg" OSError).
  - left. reflexivity.
  - reflexivity.
  - reflexivity.
  - discriminate.
Defined.

Lemma loader_variant_extends_witness :
  exists rest,
    snd (IC65_128_3.run_conversion (lib := sample_library) sample_no_d81)
    = (snd (IC65_128_2.run_conversion (lib := sample_library) sample_no_d81)
       ++ rest)%list /\
    (rest = [] \/
     exists later, rest = Printed "Generating the BASIC loader BAS file..." :: later) /\
    (forall e,
       fst (IC65_128_2.run_conversion (lib := sample_library) sample_no_d81) = Throw e ->
       fst (IC65_128_3.run_conversion (lib := sample_library) sample_no_d81) = Throw e /\
       rest = []).
Proof. apply (loader_variant_extends (lib := sample_library) sample_no_d81). Defined.


Lemma d81_message_after_success_witness :
  rc_cc1541 (sample_answers "") = Ok 0%Z.
Proof.
  apply (d81_message_after_success (lib := sample_library)
           (IC65_128_3.run_conversion (lib := sample_library)) (sample_answers "")).
  - right. reflexivity.
  - vm_compute. reflexivity.
Defined.

Lemma missing_file_aborts_run_2_witness :
  let t := snd (IC65_128_2.run_conversion (lib := sample_library) sample_no_d81) in
  fst (IC65_128_2.run_conversion (lib := sample_library) sample_no_d81) = Next tt /\
  exists line, drop 16 t = [Printed line] /\ String.prefix "Error" line = true.
Proof.
  apply (missing_file_aborts_run_2 (lib := sample_library) sample_no_d81
           (take 15 (snd (IC65_128_2.run_conversion (lib := sample_library)
                            sample_no_d81)))
           (drop 16 (snd (IC65_128_2.run_conversion (lib := sample_library)
                            sample_no_d81)))
           "mega65club.d81").
  vm_compute. reflexivity.
Defined.

Lemma int_of_str_witness : Str.int (Str.of_int (-1234)) = Ok (-1234).
Proof. apply (int_of_str (-1234)). apply Nat.leb_le. vm_compute. reflexivity. Defined.

Lemma written_count_decides_reduction_witness :
  let run := IC65_128_2.run_conversion (lib := sample_library) in
  let w := sample_answers ("ppmtoilbm: " ++ Str.of_int 200 ++ " " ++ marker ++ "") in
  color_count (stderr_ilbm w) = Ok (Some 200) /\
  (existsb touches_image (snd (run w)) = true <-> 128 <= 200).
Proof.
  apply (written_count_decides_reduction (lib := sample_library)
           IC65_128_2.run_conversion
           (sample_answers ("ppmtoilbm: " ++ Str.of_int 200 ++ " " ++ marker ++ ""))
           "photo.jpg" "ppmtoilbm: " " " "" 200).
  - left. reflexivity.
  - repeat split; reflexivity.
  - reflexivity.
  - reflexivity.
  - reflexivity.
  - split; [reflexivity|].
    intros k Hk. unfold occurs_at.
    do 15 (destruct k as [|k]; [vm_compute; discriminate|]).
    vm_compute in Hk. lia.
  - apply Nat.leb_le. vm_compute. reflexivity.
Defined.

Lemma session_goes_on_witness :
  let run := IC65_128_3.run_conversion (lib := sample_library) in
  let iterations := [sample_run (Ok 0%Z) true true None;
                     sample_run (Ok 0%Z) false true None] in
  session run iterations
  = (Prompting,
     flat_map (fun w => snd (run w) ++ [Prompted retry_prompt (in_retry w)])%list
              iterations).
Proof.
  apply (session_goes_on (lib := sample_library) IC65_128_3.run_conversion
           [sample_run (Ok 0%Z) true true None; sample_run (Ok 0%Z) false true None]).
  repeat (apply Forall_cons; split;
          [split; [exists "y"; split; reflexivity|reflexivity]|]).
  apply Forall_nil. exact I.
Defined.

Lemma loader_follows_disk_authoring_witness :
  In (Printed "Generating the BASIC loader BAS file...")
     (snd (IC65_128_3.run_conversion (lib := sample_library) sample_no_d81)).
Proof.
  apply (loader_follows_disk_authoring (lib := sample_library) sample_no_d81).
  vm_compute. reflexivity.
Defined.
